(** * Ragie RAG agent: the query pipeline of [app/main.py] and
      [app/ragie_client.py]

    The development embeds the query endpoint, the retrieval adapter
    [retrieve_chunks] and the answer generator [generate_response] as Rocq
    functions.  Python values that come back from the retrieval service are
    JSON documents of unknown shape, so they are kept as an untyped [json]
    tree and every primitive the source applies to them ([.get], [in],
    slicing, iteration, truth testing) raises the exception Python raises on
    a value of the wrong shape.  The two external services are oracles of an
    [environment]; every call made to them is appended to a call log, which
    is the state threaded through the code.  Logging is not modelled: the
    [logger] calls of the source only format values and cannot raise. *)

From Stdlib Require Import ZArith String Ascii List Lia.
From stdpp Require Import base gmap strings list pretty.

Set Warnings "-register-all".

(** ** Python values *)

Module Py.

(** A value decoded by [response.json()], and the dictionaries and lists the
    code builds itself.  A Python [str] is a [string]; one [ascii] stands for
    one character.  [JFloat m e] is the finite double [m * 2^e]; the code only
    copies floats and tests them for zero. *)
Inductive json : Type :=
  | JNull
  | JBool (b : bool)
  | JInt (z : Z)
  | JFloat (m e : Z)
  | JStr (s : string)
  | JList (l : list json)
  | JDict (d : gmap string json).

(** The exceptions the modelled code can meet.  All of them derive from
    [Exception], so every [except Exception] clause catches each of them. *)
Inductive exn : Type :=
  | AttributeError
  | TypeError
  | KeyError
  | IndexError
  | ConnectionError
  | HTTPError (status : Z)
  | JSONDecodeError
  | OpenAIError
  | RequestValidationError
  | HTTPException (status_code : Z) (detail : string).

Inductive result (A : Type) : Type :=
  | Ok (a : A)
  | Raise (e : exn).
Arguments Ok {A} a.
Arguments Raise {A} e.

Definition rbind {A B} (r : result A) (k : A -> result B) : result B :=
  match r with
  | Ok a => k a
  | Raise e => Raise e
  end.

(** [bool(v)]: the truth value Python gives [v] in [if not v]. *)
Definition truthy (v : json) : bool :=
  match v with
  | JNull => false
  | JBool b => b
  | JInt z => negb (Z.eqb z 0)
  | JFloat m _ => negb (Z.eqb m 0)
  | JStr s => negb (String.eqb s "")
  | JList l => match l with [] => false | _ :: _ => true end
  | JDict d => negb (bool_decide (d = ∅))
  end.

(** [v.get(key, default)]: only a [dict] has the method. *)
Definition get (v : json) (key : string) (dflt : json) : result json :=
  match v with
  | JDict d => Ok (default dflt (d !! key))
  | _ => Raise AttributeError
  end.

(** [v.get(key)], whose default is [None]. *)
Definition get_none (v : json) (key : string) : result json :=
  get v key JNull.

(** [sub in s] on two strings. *)
Fixpoint is_substring (sub s : string) : bool :=
  if String.prefix sub s then true
  else match s with
       | EmptyString => false
       | String _ s' => is_substring sub s'
       end.

(** [key == x] for a [str] key: only an equal [str] compares equal. *)
Definition str_equals (key : string) (x : json) : bool :=
  match x with
  | JStr s => String.eqb key s
  | _ => false
  end.

(** [key in v] for a [str] key: key membership on a dict, element membership
    on a list, substring test on a string, [TypeError] on a value that is not
    a container. *)
Definition contains (key : string) (v : json) : result bool :=
  match v with
  | JDict d => Ok (bool_decide (is_Some (d !! key)))
  | JList l => Ok (existsb (str_equals key) l)
  | JStr s => Ok (is_substring key s)
  | _ => Raise TypeError
  end.

(** [v[key]] for a [str] key. *)
Definition getitem (v : json) (key : string) : result json :=
  match v with
  | JDict d => match d !! key with Some x => Ok x | None => Raise KeyError end
  | _ => Raise TypeError
  end.

(** [v[key] = x] for a [str] key. *)
Definition setitem (v : json) (key : string) (x : json) : result json :=
  match v with
  | JDict d => Ok (JDict (<[key := x]> d))
  | _ => Raise TypeError
  end.

(** [s[:n]] on a string. *)
Definition slice_to (n : nat) (s : string) : string := String.substring 0 n s.

(** [v[:n] + suffix] where [suffix] is a [str]: a string is sliced and
    extended; a list slices but cannot be added to a [str], and every other
    value cannot be sliced. *)
Definition slice_to_plus (n : nat) (v : json) (suffix : string) : result json :=
  match v with
  | JStr s => Ok (JStr (slice_to n s +:+ suffix))
  | _ => Raise TypeError
  end.

Definition chars (s : string) : list json :=
  (fun c => JStr (String c "")) <$> list_ascii_of_string s.

(** The elements [for x in v] visits.  A dict yields its keys; their order is
    the map's, not insertion order, and every one of them is a [str]. *)
Definition iter (v : json) : result (list json) :=
  match v with
  | JList l => Ok l
  | JStr s => Ok (chars s)
  | JDict d => Ok (JStr <$> (map_to_list d).*1)
  | _ => Raise TypeError
  end.

(** [enumerate(l)], counting from [i]. *)
Fixpoint enumerate_from {A} (i : nat) (l : list A) : list (nat * A) :=
  match l with
  | [] => []
  | x :: l' => (i, x) :: enumerate_from (S i) l'
  end.

Definition enumerate {A} (l : list A) : list (nat * A) := enumerate_from 0 l.

(** [sep.join(parts)]. *)
Fixpoint join (sep : string) (parts : list string) : string :=
  match parts with
  | [] => ""
  | [p] => p
  | p :: rest => p +:+ sep +:+ join sep rest
  end.

Definition nl : string := String (ascii_of_nat 10) "".

End Py.
Import Py.

(** ** The environment: configuration and external services *)

(** What [requests.post] hands back: the status line and the body, [None]
    when the body is not a JSON document. *)
Record http_response : Type := {
  status_code : Z;
  json_body : option json;
}.

(** A completion of the chat API: the [message.content] of each choice. *)
Definition completion : Type := list (option string).

(** [app/config.py] together with the two services and the two renderings
    the interpreter owns: [str(e)] of an exception and [str(v)] of a value
    that is not a string. *)
Record environment : Type := {
  RAGIE_API_TOKEN : option string;
  RAGIE_SERVER_URL : string;
  OPENAI_API_KEY : option string;
  OPENAI_MODEL : string;
  API_ENV : string;
  API_SECRET_KEY : string;
  requests_post : string -> json -> gmap string string -> result http_response;
  chat_completions_create : string -> list (string * string) -> result completion;
  exn_str : exn -> string;
  value_str : json -> string;
}.

(** One entry of the call log per request sent to an external service. *)
Inductive call : Type :=
  | RagiePost (url : string) (payload : json) (headers : gmap string string)
  | OpenAIChat (model : string) (messages : list (string * string)).

Definition is_openai_call (c : call) : bool :=
  match c with
  | OpenAIChat _ _ => true
  | RagiePost _ _ _ => false
  end.

Definition is_ragie_call (c : call) : bool := negb (is_openai_call c).

(** ** Computations: a call log threaded through code that may raise *)

Definition M (A : Type) : Type := list call -> result A * list call.

Definition ret {A} (a : A) : M A := fun w => (Ok a, w).

Definition raise {A} (e : exn) : M A := fun w => (Raise e, w).

Definition lift {A} (r : result A) : M A := fun w => (r, w).

Definition bind {A B} (m : M A) (k : A -> M B) : M B :=
  fun w =>
    match m w with
    | (Ok a, w') => k a w'
    | (Raise e, w') => (Raise e, w')
    end.

(** [try: body / except Exception as e: handler e]. *)
Definition try_except {A} (body : M A) (handler : exn -> M A) : M A :=
  fun w =>
    match body w with
    | (Ok a, w') => (Ok a, w')
    | (Raise e, w') => handler e w'
    end.

(** An external call: logged, then answered by the service. *)
Definition external {A} (c : call) (answer : result A) : M A :=
  fun w => (answer, w ++ [c]).

Notation "'let*' x ':=' m 'in' k" := (bind m (fun x => k))
  (at level 10, x pattern, m at level 100, k at level 200).
Notation "'let?' x ':=' r 'in' k" := (rbind r (fun x => k))
  (at level 10, x pattern, r at level 100, k at level 200).

Fixpoint for_each {S X} (body : S -> X -> result S) (s : S) (xs : list X)
  : result S :=
  match xs with
  | [] => Ok s
  | x :: xs' => let? s' := body s x in for_each body s' xs'
  end.

(** ** [app/config.py] *)

Definition not_set (v : option string) : bool :=
  match v with
  | None => true
  | Some s => String.eqb s ""
  end.

Definition validate_config (env : environment) : bool * option string :=
  if not_set (RAGIE_API_TOKEN env) then
    (false, Some "RAGIE_API_TOKEN is not set in environment variables")
  else if not_set (OPENAI_API_KEY env) then
    (false, Some "OPENAI_API_KEY is not set in environment variables")
  else if String.eqb (API_ENV env) "production"
          && String.eqb (API_SECRET_KEY env) "dev-key-change-in-production" then
    (false, Some "API_SECRET_KEY should be changed in production environment")
  else (true, None).

(** ** [app/ragie_client.py] *)

(** The f-string [f"client_{client_id}"] of [upload_document],
    [retrieve_chunks] and [list_documents]. *)
Definition partition_of (client_id : string) : string := "client_" +:+ client_id.

(** [f"{v}"] for an optional string. *)
Definition format_optional (v : option string) : string :=
  match v with
  | Some s => s
  | None => "None"
  end.

Definition retrieval_url (env : environment) : string :=
  RAGIE_SERVER_URL env +:+ "/retrievals".

Definition retrieval_payload (query client_id : string) (top_k : Z) : gmap string json :=
  {[ "query" := JStr query;
     "partition" := JStr (partition_of client_id);
     "top_k" := JInt top_k;
     "rerank" := JBool true;
     "recency_bias" := JBool true ]}.

Definition retrieval_headers (env : environment) : gmap string string :=
  {[ "Content-Type" := "application/json";
     "accept" := "application/json";
     "Authorization" := "Bearer " +:+ format_optional (RAGIE_API_TOKEN env) ]}.

(** [response.raise_for_status()]. *)
Definition raise_for_status (response : http_response) : result unit :=
  if (400 <=? status_code response)%Z && (status_code response <? 600)%Z
  then Raise (HTTPError (status_code response))
  else Ok tt.

(** [response.json()]. *)
Definition response_json (response : http_response) : result json :=
  match json_body response with
  | Some v => Ok v
  | None => Raise JSONDecodeError
  end.

Definition no_chunks : json := JDict {[ "chunks" := JList [] ]}.

Definition retrieve_chunks (env : environment)
    (query client_id : string) (top_k : Z) : M json :=
  let url := retrieval_url env in
  let payload := JDict (retrieval_payload query client_id top_k) in
  let headers := retrieval_headers env in
  try_except
    (let* response := external (RagiePost url payload headers)
                               (requests_post env url payload headers) in
     let* _ := lift (raise_for_status response) in
     let* result := lift (response_json response) in
     let* has_scored := lift (contains "scored_chunks" result) in
     let* remap := (if has_scored : bool
                    then let* has_chunks := lift (contains "chunks" result) in
                         ret (negb has_chunks)
                    else ret false) in
     if remap : bool
     then let* scored := lift (getitem result "scored_chunks") in
          lift (setitem result "chunks" scored)
     else ret result)
    (fun _ => ret no_chunks).

(** The display budget of a citation preview and the marker put after it. *)
Definition preview_budget : nat := 100.
Definition ellipsis : string := "...".

(** [f"{v}"]: a string is inserted as it is, any other value through its
    [str]. *)
Definition format_value (env : environment) (v : json) : string :=
  match v with
  | JStr s => s
  | _ => value_str env v
  end.

(** [f"[{i+1}] {chunk.get('text', '')}"]. *)
Definition context_part (env : environment) (i : nat) (chunk : json)
  : result string :=
  let? text := get chunk "text" (JStr "") in
  Ok ("[" +:+ pretty (i + 1) +:+ "] " +:+ format_value env text).

(** The [citation] dictionary of one loop iteration; its values are
    evaluated in the order they are written. *)
Definition citation (i : nat) (chunk : json) : result json :=
  let? document_id := get_none chunk "document_id" in
  let? chunk_id := get_none chunk "chunk_id" in
  let? text := get chunk "text" (JStr "") in
  let? preview := slice_to_plus preview_budget text ellipsis in
  let? page_number := get chunk "page_number" (JStr "N/A") in
  let? score := get chunk "score" (JInt 0) in
  Ok (JDict {[ "id" := JInt (Z.of_nat i + 1);
               "document_id" := document_id;
               "chunk_id" := chunk_id;
               "text" := preview;
               "page_number" := page_number;
               "score" := score ]}).

(** The body of [for i, chunk in enumerate(chunks)]; the state is the pair
    of lists [context_parts] and [citations], both extended by [append]. *)
Definition loop_body (env : environment)
    (acc : list string * list json) (ic : nat * json)
  : result (list string * list json) :=
  let? part := context_part env ic.1 ic.2 in
  let? cit := citation ic.1 ic.2 in
  Ok (acc.1 ++ [part], acc.2 ++ [cit]).

Definition build_context_and_citations (env : environment) (chunks : list json)
  : result (list string * list json) :=
  for_each (loop_body env) ([], []) (enumerate chunks).

Definition system_prompt : string :=
  "You are a helpful assistant that answers questions based on the provided context."
  +:+ nl +:+
  "Always include citations to your sources using the format [n] where n is the citation number."
  +:+ nl +:+
  "If the answer cannot be found in the context, state that clearly.".

Definition user_prompt (context query : string) : string :=
  "Context:" +:+ nl +:+ context +:+ nl +:+ nl +:+
  "Question: " +:+ query +:+ nl +:+ nl +:+
  "Answer the question based on the context provided. Use citations in the format [n] to reference your sources.".

(** [response.choices[0].message.content]. *)
Definition first_choice_content (response : completion) : result json :=
  match response with
  | [] => Raise IndexError
  | Some s :: _ => Ok (JStr s)
  | None :: _ => Ok JNull
  end.

Definition generate_response (env : environment)
    (query : string) (chunks : json) : M json :=
  let* items := lift (iter chunks) in
  let* built := lift (build_context_and_citations env items) in
  let context := join (nl +:+ nl) built.1 in
  let messages := [("system", system_prompt);
                   ("user", user_prompt context query)] in
  let* response := external (OpenAIChat (OPENAI_MODEL env) messages)
                            (chat_completions_create env (OPENAI_MODEL env) messages) in
  let* answer := lift (first_choice_content response) in
  ret (JDict {[ "answer" := answer; "citations" := JList built.2 ]}).

(** ** [app/main.py] *)

Record QueryRequest : Type := {
  query_text : string;   (* query: str *)
  client_id : string;    (* client_id: str *)
  top_k : Z;             (* top_k: int = 8 *)
}.

(** A request body whose fields, when present, have the declared types. *)
Record request_body : Type := {
  body_query : option string;
  body_client_id : option string;
  body_top_k : option Z;
}.

(** Validation of a body against [QueryRequest]: [query] and [client_id] are
    required, [top_k] defaults to 8. *)
Definition parse_QueryRequest (b : request_body) : result QueryRequest :=
  match body_query b, body_client_id b with
  | Some q, Some c =>
      Ok {| query_text := q; client_id := c;
            top_k := match body_top_k b with Some k => k | None => 8%Z end |}
  | _, _ => Raise RequestValidationError
  end.

Definition verify_config (env : environment) : M bool :=
  match validate_config env with
  | (true, _) => ret true
  | (false, error_message) =>
      raise (HTTPException 500
               ("Server configuration error: " +:+ format_optional error_message))
  end.

Definition no_relevant_information : json :=
  JDict {[ "answer" := JStr "No relevant information found for your query.";
           "citations" := JList [] ]}.

(** [retrieval_result.get("chunks", retrieval_result.get("scored_chunks", []))];
    the inner default is evaluated first. *)
Definition extract_chunks (retrieval_result : json) : result json :=
  let? scored := get retrieval_result "scored_chunks" (JList []) in
  get retrieval_result "chunks" scored.

(** The handler of [POST /query]. *)
Definition query (env : environment) (request : QueryRequest) : M json :=
  try_except
    (let* retrieval_result :=
       retrieve_chunks env (query_text request) (client_id request) (top_k request) in
     let* chunks := lift (extract_chunks retrieval_result) in
     if negb (truthy chunks)
     then ret no_relevant_information
     else generate_response env (query_text request) chunks)
    (fun e => raise (HTTPException 500 (exn_str env e))).

(** The route [POST /query]: the [verify_config] dependency is solved first,
    then the body is validated, then the handler runs. *)
Definition post_query (env : environment) (b : request_body) : M json :=
  let* _ := verify_config env in
  let* request := lift (parse_QueryRequest b) in
  query env request.

(** ** Document management: the rest of [app/ragie_client.py] and
       [app/main.py]

    The upload, listing and webhook code talks to other endpoints than the
    query pipeline, so it has a call log of its own; the computations are the
    same log-threading ones, generic in the kind of call. *)

Module Logged.

Definition t (C A : Type) : Type := list C -> result A * list C.

Definition ret {C A} (a : A) : t C A := fun w => (Ok a, w).

Definition raise {C A} (e : exn) : t C A := fun w => (Raise e, w).

Definition lift {C A} (r : result A) : t C A := fun w => (r, w).

Definition bind {C A B} (m : t C A) (k : A -> t C B) : t C B :=
  fun w =>
    match m w with
    | (Ok a, w') => k a w'
    | (Raise e, w') => (Raise e, w')
    end.

Definition try_except {C A} (body : t C A) (handler : exn -> t C A) : t C A :=
  fun w =>
    match body w with
    | (Ok a, w') => (Ok a, w')
    | (Raise e, w') => handler e w'
    end.

Definition external {C A} (c : C) (answer : result A) : t C A :=
  fun w => (answer, w ++ [c]).

(** The calls made so far, for what depends on the moment of a call. *)
Definition history {C} : t C (list C) := fun w => (Ok w, w).

End Logged.

Notation "'let+' x ':=' m 'in' k" := (Logged.bind m (fun x => k))
  (at level 10, x pattern, m at level 100, k at level 200).

(** The [file] handed to [requests.post(files=...)]: the [io.BytesIO] object
    with its [name], or the raw bytes of the fallback. *)
Inductive file_arg : Type :=
  | BytesIO (name : string) (contents : string)
  | RawBytes (contents : string).

(** What reaches the outside from the document-management code. *)
Inductive doc_call : Type :=
  | UploadPost (url : string) (headers : gmap string string)
               (file_name : string) (file : file_arg) (content_type : string)
               (data : gmap string string)
  | DocumentsGet (url : string) (headers : gmap string string)
  | WebhookCreate (request : json).

(** The SDK client as [setup_webhook] sees it: [webhooks_create] is [None]
    when the client has no [webhooks.create]; otherwise it maps the request to
    the [to_dict()] of the response, or raises. *)
Record ragie_sdk_client : Type := {
  webhooks_create : option (json -> result json);
}.

(** The collaborators of the document-management code: [WEBHOOK_BASE_URL] of
    [app/config.py], the two HTTP verbs it uses, [json.dumps], the clock read
    by [datetime.now().isoformat()] (a function of the calls made so far) and
    the cached SDK client, whose construction or entry may raise. *)
Record platform : Type := {
  WEBHOOK_BASE_URL : option string;
  requests_post_files :
    string -> gmap string string -> string -> file_arg -> string ->
    gmap string string -> result http_response;
  requests_get : string -> gmap string string -> result http_response;
  json_dumps : json -> string;
  now_isoformat : list doc_call -> string;
  get_ragie_client : result ragie_sdk_client;
}.

Definition documents_url (env : environment) : string :=
  RAGIE_SERVER_URL env +:+ "/documents".

Definition upload_metadata (client_id timestamp : string) : json :=
  JDict {[ "client_id" := JStr client_id;
           "upload_timestamp" := JStr timestamp;
           "source" := JStr "rag_agent" ]}.

Definition upload_data (ext : platform) (client_id timestamp : string)
  : gmap string string :=
  {[ "partition" := partition_of client_id;
     "metadata" := json_dumps ext (upload_metadata client_id timestamp) ]}.

Definition upload_headers (env : environment) : gmap string string :=
  {[ "accept" := "application/json";
     "Authorization" := "Bearer " +:+ format_optional (RAGIE_API_TOKEN env) ]}.

Definition upload_document (env : environment) (ext : platform)
    (file : file_arg) (client_id file_name : string) : Logged.t doc_call json :=
  let url := documents_url env in
  let+ w := Logged.history in
  let data := upload_data ext client_id (now_isoformat ext w) in
  let headers := upload_headers env in
  Logged.try_except
    (let+ response :=
       Logged.external
         (UploadPost url headers file_name file "application/octet-stream" data)
         (requests_post_files ext url headers file_name file
                              "application/octet-stream" data) in
     let+ _ := Logged.lift (raise_for_status response) in
     Logged.lift (response_json response))
    (fun e => Logged.raise e).

Definition list_headers (env : environment) (client_id : string)
  : gmap string string :=
  {[ "accept" := "application/json";
     "Authorization" := "Bearer " +:+ format_optional (RAGIE_API_TOKEN env);
     "partition" := partition_of client_id ]}.

(** The branches of [list_documents] on the decoded body. *)
Definition documents_of (result : json) : json :=
  match result with
  | JList _ => result
  | JDict d => match d !! "documents" with
               | Some documents => documents
               | None => JList [result]
               end
  | _ => JList []
  end.

Definition list_documents (env : environment) (ext : platform)
    (client_id : string) : Logged.t doc_call json :=
  let url := documents_url env in
  let headers := list_headers env client_id in
  Logged.try_except
    (let+ response :=
       Logged.external (DocumentsGet url headers) (requests_get ext url headers) in
     let+ _ := Logged.lift (raise_for_status response) in
     Logged.try_except
       (let+ result := Logged.lift (response_json response) in
        Logged.ret (documents_of result))
       (fun e => match e with
                 | JSONDecodeError => Logged.ret (JList [])
                 | _ => Logged.raise e
                 end))
    (fun _ => Logged.ret (JList [])).

Definition webhook_config (endpoint_url : string) : json :=
  JDict {[ "name" := JStr "RAG Agent Webhook";
           "url" := JStr endpoint_url;
           "active" := JBool true;
           "events" := JList [JStr "document_status_updated";
                              JStr "document_deleted"] ]}.

Definition webhook_warning : json :=
  JDict {[ "status" := JStr "warning";
           "message" := JStr "Webhook setup via API may not be supported. Please set up webhooks in the Ragie UI." ]}.

Definition setup_webhook (ext : platform) (endpoint_url : string)
  : Logged.t doc_call json :=
  Logged.try_except
    (let+ client := Logged.lift (get_ragie_client ext) in
     match webhooks_create client with
     | Some create =>
         Logged.external (WebhookCreate (webhook_config endpoint_url))
                         (create (webhook_config endpoint_url))
     | None => Logged.ret webhook_warning
     end)
    (fun _ => Logged.ret webhook_warning).

(** [if WEBHOOK_BASE_URL:] *)
Definition is_set (v : option string) : bool := negb (not_set v).

(** [startup_event]: the configuration is validated and only logged; the
    webhook is set up when a base URL is configured; the result is inspected
    with [.get] inside the same [try]. *)
Definition startup_event (env : environment) (ext : platform)
  : Logged.t doc_call unit :=
  let _ := validate_config env in
  if is_set (WEBHOOK_BASE_URL ext) then
    Logged.try_except
      (let+ result :=
         setup_webhook ext (format_optional (WEBHOOK_BASE_URL ext) +:+ "/webhook") in
       let+ _ := Logged.lift (get_none result "status") in
       Logged.ret tt)
      (fun _ => Logged.ret tt)
  else Logged.ret tt.

(** [s.lower()] on characters read as Latin-1 code points: the letters [A-Z]
    and the upper-case letters of the upper half, all 32 below their
    lower-case forms. *)
Definition lower_char (c : ascii) : ascii :=
  let n := nat_of_ascii c in
  if ((65 <=? n) && (n <=? 90)) || ((192 <=? n) && (n <=? 222) && negb (n =? 215))
  then ascii_of_nat (n + 32)
  else c.

Fixpoint lower (s : string) : string :=
  match s with
  | EmptyString => EmptyString
  | String c s' => String (lower_char c) (lower s')
  end.

(** [s.split(sep)] for a one-character separator. *)
Fixpoint split_on (sep : ascii) (s : string) : list string :=
  match s with
  | EmptyString => [EmptyString]
  | String c s' =>
      if Ascii.eqb c sep then EmptyString :: split_on sep s'
      else match split_on sep s' with
           | [] => [String c EmptyString]
           | segment :: rest => String c segment :: rest
           end
  end.

(** [l[-1]]. *)
Definition last_item {A} (l : list A) : result A :=
  match last l with
  | Some x => Ok x
  | None => Raise IndexError
  end.

Definition supported_types : list string := ["pdf"; "docx"; "csv"; "txt"].

(** [x in l] on strings. *)
Definition in_list (x : string) (l : list string) : bool :=
  existsb (String.eqb x) l.

(** [file.filename.split(".")[-1].lower()]. *)
Definition file_extension (file_name : string) : result string :=
  let? segment := last_item (split_on "."%char file_name) in
  Ok (lower segment).

(** The [UploadFile] of the request: its name, if any, and what [read()]
    returns. *)
Record UploadFile : Type := {
  filename : option string;
  file_contents : string;
}.

Definition unsupported_detail (extension : string) : string :=
  "Unsupported file type: " +:+ extension
  +:+ ". Supported types: pdf, docx, csv, txt".

(** The handler of [POST /upload]. *)
Definition upload_file (env : environment) (ext : platform)
    (file : UploadFile) (client_id : string) : Logged.t doc_call json :=
  Logged.try_except
    (let+ name := Logged.lift (match filename file with
                               | Some n => Ok n
                               | None => Raise AttributeError
                               end) in
     let+ extension := Logged.lift (file_extension name) in
     if negb (in_list extension supported_types)
     then Logged.raise (HTTPException 400 (unsupported_detail extension))
     else
       let contents := file_contents file in
       Logged.try_except
         (upload_document env ext (BytesIO name contents) client_id name)
         (fun _ => upload_document env ext (RawBytes contents) client_id name))
    (fun e => Logged.raise (HTTPException 500 (exn_str env e))).

Record DocumentListRequest : Type := {
  list_client_id : string;   (* client_id: str *)
}.

(** The handler of [POST /documents]. *)
Definition get_documents (env : environment) (ext : platform)
    (request : DocumentListRequest) : Logged.t doc_call json :=
  Logged.try_except
    (let+ documents := list_documents env ext (list_client_id request) in
     Logged.ret (JDict {[ "documents" := documents ]}))
    (fun e => Logged.raise (HTTPException 500 (exn_str env e))).

(** ** [streamlit_app.py] *)

Definition status_map : gmap string Z :=
  {[ "pending" := 10; "partitioning" := 30; "chunking" := 50; "chunked" := 60;
     "indexing" := 70; "indexed" := 80; "keyword_indexed" := 90;
     "ready" := 100; "failed" := 0; "unknown" := 0 ]}%Z.

(** [get_progress_percentage(status)]; only a [str] has [lower]. *)
Definition get_progress_percentage (status : json) : result Z :=
  match status with
  | JStr s => Ok (default 20%Z (status_map !! lower s))
  | _ => Raise AttributeError
  end.

(** * Properties *)

(** ** Shapes used in the statements *)

(** A chunk the citation loop accepts: a dictionary whose [text], when
    present, is a string. *)
Definition is_passage (chunk : json) : bool :=
  match chunk with
  | JDict d => match d !! "text" with
               | None | Some (JStr _) => true
               | Some _ => false
               end
  | _ => false
  end.

Definition passage_text (d : gmap string json) : string :=
  match d !! "text" with
  | Some (JStr s) => s
  | _ => ""
  end.

(** The retrieval call of one query, as it appears in the call log. *)
Definition retrieval_call (env : environment) (request : QueryRequest) : call :=
  RagiePost (retrieval_url env)
            (JDict (retrieval_payload (query_text request) (client_id request)
                                      (top_k request)))
            (retrieval_headers env).

(** The answer of the retrieval service to one query. *)
Definition retrieval_answer (env : environment) (request : QueryRequest)
  : result http_response :=
  requests_post env (retrieval_url env)
    (JDict (retrieval_payload (query_text request) (client_id request)
                              (top_k request)))
    (retrieval_headers env).

(** A network or service failure of the retrieval call: the request itself
    raises, the service answers with an error status, or the body it sends is
    not JSON. *)
Inductive retrieval_failure (env : environment) (request : QueryRequest) : Prop :=
  | network_failure e :
      retrieval_answer env request = Raise e ->
      retrieval_failure env request
  | error_status response :
      retrieval_answer env request = Ok response ->
      (400 <= status_code response < 600)%Z ->
      retrieval_failure env request
  | undecodable_body response :
      retrieval_answer env request = Ok response ->
      json_body response = None ->
      retrieval_failure env request.

Definition openai_calls (w : list call) : list call := List.filter is_openai_call w.

(** The request is turned away and the call log is left as it was. *)
Definition rejected_without_call (env : environment) (b : request_body) : Prop :=
  forall w, exists e, post_query env b w = (Raise e, w).

(** Citation [c] is the one the loop derives from the chunk [d] met at
    position [i] (counted from 0). *)
Definition derived_from (i : nat) (d c : gmap string json) : Prop :=
  c !! "id" = Some (JInt (Z.of_nat i + 1)) /\
  c !! "document_id" = Some (default JNull (d !! "document_id")) /\
  c !! "chunk_id" = Some (default JNull (d !! "chunk_id")) /\
  c !! "text" = Some (JStr (slice_to preview_budget (passage_text d) +:+ ellipsis)) /\
  c !! "page_number" = Some (default (JStr "N/A") (d !! "page_number")) /\
  c !! "score" = Some (default (JInt 0) (d !! "score")).

(** ** Concrete inputs *)

Module Sample.

(** A deployment whose two services give fixed answers. *)
Definition env (post : result http_response) (chat : result completion)
  : environment :=
  {| RAGIE_API_TOKEN := Some "token";
     RAGIE_SERVER_URL := "https://api.ragie.ai";
     OPENAI_API_KEY := Some "key";
     OPENAI_MODEL := "gpt-4o";
     API_ENV := "development";
     API_SECRET_KEY := "dev-key-change-in-production";
     requests_post := fun _ _ _ => post;
     chat_completions_create := fun _ _ => chat;
     exn_str := fun _ => "error";
     value_str := fun _ => "" |}.

Definition request : QueryRequest :=
  {| query_text := "What is the refund policy?"; client_id := "client1"; top_k := 8 |}.

Definition refunds : gmap string json :=
  {[ "text" := JStr "Refunds are accepted within 30 days.";
     "document_id" := JStr "doc-1";
     "score" := JFloat 7 (-3) ]}.

Definition short : gmap string json := {[ "text" := JStr "hi" ]}.

Definition unnumbered : gmap string json :=
  {[ "text" := JStr "hi"; "page_number" := JNull ]}.

Definition long_text : string := string_of_list_ascii (repeat "a"%char (100 * 100)).

Definition long : gmap string json := {[ "text" := JStr long_text ]}.

Definition answered (chunks : list json) : result http_response :=
  Ok {| status_code := 200;
        json_body := Some (JDict {[ "scored_chunks" := JList chunks ]}) |}.

Definition fine : environment :=
  env (answered [JDict refunds; JDict short]) (Ok [Some "Within 30 days [1]."]).

Definition nothing_found : environment :=
  env (answered []) (Ok [Some "unused"]).

Definition retrieval_down : environment :=
  env (Raise ConnectionError) (Ok [Some "unused"]).

Definition model_down : environment :=
  env (answered [JDict refunds; JDict short]) (Raise OpenAIError).

Definition empty_query : request_body :=
  {| body_query := Some ""; body_client_id := Some "client1"; body_top_k := None |}.

Definition no_client : request_body :=
  {| body_query := Some "What is the refund policy?";
     body_client_id := None; body_top_k := None |}.

End Sample.

(** ** Shapes and inputs for the remaining code *)

(** The completion call of one query, as it appears in the call log. *)
Definition completion_call (env : environment) (context query_ : string) : call :=
  OpenAIChat (OPENAI_MODEL env)
             [("system", system_prompt); ("user", user_prompt context query_)].

(** The retrieval service answered with a success status and this body. *)
Definition retrieval_body (env : environment) (request : QueryRequest)
    (body : json) : Prop :=
  exists response,
    retrieval_answer env request = Ok response /\
    ~ (400 <= status_code response < 600)%Z /\
    json_body response = Some body.

(** A JSON value that is neither a container nor a string. *)
Definition is_scalar (v : json) : bool :=
  match v with
  | JNull | JBool _ | JInt _ | JFloat _ _ => true
  | _ => false
  end.

(** The upload call of one attempt. *)
Definition upload_call (env : environment) (ext : platform)
    (file : file_arg) (client_id file_name : string) (w : list doc_call)
  : doc_call :=
  UploadPost (documents_url env) (upload_headers env) file_name file
             "application/octet-stream"
             (upload_data ext client_id (now_isoformat ext w)).

(** The answer of the document service to one upload attempt. *)
Definition upload_answer (env : environment) (ext : platform)
    (file : file_arg) (client_id file_name : string) (w : list doc_call)
  : result http_response :=
  requests_post_files ext (documents_url env) (upload_headers env) file_name
    file "application/octet-stream"
    (upload_data ext client_id (now_isoformat ext w)).

(** What [upload_document] makes of an answer: the decoded body, or the
    exception of the first step that fails. *)
Definition decoded (answer : result http_response) : result json :=
  let? response := answer in
  let? _ := raise_for_status response in
  response_json response.

(** What [list_documents] makes of an answer. *)
Definition listing_of (answer : result http_response) : json :=
  match decoded answer with
  | Ok body => documents_of body
  | Raise _ => JList []
  end.

(** The character [c] occurs in [s]. *)
Fixpoint has_char (c : ascii) (s : string) : bool :=
  match s with
  | EmptyString => false
  | String x s' => Ascii.eqb x c || has_char c s'
  end.

Definition is_upload_call (c : doc_call) : bool :=
  match c with
  | UploadPost _ _ _ _ _ _ => true
  | _ => false
  end.

Module SampleDocs.

Definition stored : http_response :=
  {| status_code := 201;
     json_body := Some (JDict {[ "id" := JStr "doc-1"; "status" := JStr "pending" ]}) |}.

(** A document service that refuses file objects and takes raw bytes. *)
Definition only_raw_bytes (file : file_arg) : result http_response :=
  match file with
  | BytesIO _ _ => Raise ConnectionError
  | RawBytes _ => Ok stored
  end.

Definition platform_of (post : file_arg -> result http_response)
    (get : result http_response) (client : result ragie_sdk_client)
    (base_url : option string) : platform :=
  {| WEBHOOK_BASE_URL := base_url;
     requests_post_files := fun _ _ _ file _ _ => post file;
     requests_get := fun _ _ => get;
     json_dumps := fun _ => "{}";
     now_isoformat := fun w => pretty (length w);
     get_ragie_client := client |}.

Definition no_webhooks : ragie_sdk_client := {| webhooks_create := None |}.

Definition failing_webhooks : ragie_sdk_client :=
  {| webhooks_create := Some (fun _ => Raise ConnectionError) |}.

Definition listing (body : json) : result http_response :=
  Ok {| status_code := 200; json_body := Some body |}.

Definition healthy : platform :=
  platform_of (fun _ => Ok stored)
              (listing (JDict {[ "documents" := JList [JDict {[ "name" := JStr "a.pdf" ]}] ]}))
              (Ok no_webhooks) None.

Definition flaky : platform :=
  platform_of only_raw_bytes (Raise ConnectionError) (Ok failing_webhooks)
              (Some "https://agent.example").

Definition down : platform :=
  platform_of (fun _ => Raise ConnectionError) (Raise ConnectionError)
              (Raise ConnectionError) (Some "https://agent.example").

Definition report : UploadFile :=
  {| filename := Some "Q3.Report.PDF"; file_contents := "%PDF-1.7" |}.

Definition program : UploadFile :=
  {| filename := Some "setup.exe"; file_contents := "MZ" |}.

Definition production : environment :=
  {| RAGIE_API_TOKEN := Some "token";
     RAGIE_SERVER_URL := "https://api.ragie.ai";
     OPENAI_API_KEY := Some "key";
     OPENAI_MODEL := "gpt-4o";
     API_ENV := "production";
     API_SECRET_KEY := "dev-key-change-in-production";
     requests_post := fun _ _ _ => Raise ConnectionError;
     chat_completions_create := fun _ _ => Raise OpenAIError;
     exn_str := fun _ => "error";
     value_str := fun _ => "" |}.

Definition broken : gmap string json := {[ "text" := JInt 7 ]}.

(** A deployment whose retrieval service sends [body] with status 200 and
    whose model answers [reply]. *)
Definition replying (body : json) (reply : completion) : environment :=
  Sample.env (Ok {| status_code := 200; json_body := Some body |}) (Ok reply).

Definition scored_only : gmap string json :=
  {[ "scored_chunks" := JList [JDict Sample.refunds; JDict Sample.short] ]}.

(** A model that fails on every grounded prompt (a system and a user
    message) and would answer any other one. *)
Definition grounded_prompt_fails : environment :=
  {| RAGIE_API_TOKEN := Some "token";
     RAGIE_SERVER_URL := "https://api.ragie.ai";
     OPENAI_API_KEY := Some "key";
     OPENAI_MODEL := "gpt-4o";
     API_ENV := "development";
     API_SECRET_KEY := "dev-key-change-in-production";
     requests_post := fun _ _ _ => Sample.answered [JDict Sample.refunds; JDict Sample.short];
     chat_completions_create :=
       fun _ messages => match messages with
                         | [_; _] => Raise OpenAIError
                         | _ => Ok [Some "made up"]
                         end;
     exn_str := fun _ => "error";
     value_str := fun _ => "" |}.

(** A model that answers with the user prompt it was given. *)
Definition echo : environment :=
  {| RAGIE_API_TOKEN := Some "token";
     RAGIE_SERVER_URL := "https://api.ragie.ai";
     OPENAI_API_KEY := Some "key";
     OPENAI_MODEL := "gpt-4o";
     API_ENV := "development";
     API_SECRET_KEY := "dev-key-change-in-production";
     requests_post := fun _ _ _ => Sample.answered [JDict Sample.short];
     chat_completions_create :=
       fun _ messages => match messages with
                         | [_; (_, prompt)] => Ok [Some prompt]
                         | _ => Ok []
                         end;
     exn_str := fun _ => "error";
     value_str := fun _ => "" |}.

Definition created : json := JDict {[ "id" := JStr "webhook-1" ]}.

Definition working_webhooks : ragie_sdk_client :=
  {| webhooks_create := Some (fun _ => Ok created) |}.

Definition with_webhooks : platform :=
  platform_of (fun _ => Ok stored) (Raise ConnectionError) (Ok working_webhooks)
              (Some "https://agent.example").

End SampleDocs.

(** ** The retrieval adapter *)

Lemma retrieve_chunks_log env q c k w :
  (retrieve_chunks env q c k w).2 =
  w ++ [RagiePost (retrieval_url env) (JDict (retrieval_payload q c k))
                  (retrieval_headers env)].
Proof.
  unfold retrieve_chunks, try_except, bind, external, lift, ret.
  destruct (requests_post env _ _ _) as [response|e]; [|reflexivity].
  destruct (raise_for_status response); [|reflexivity].
  destruct (response_json response) as [result|]; [|reflexivity].
  destruct (contains "scored_chunks" result) as [[]|]; [| reflexivity..].
  destruct (contains "chunks" result) as [[]|]; cbn [negb]; [reflexivity| |reflexivity].
  destruct (getitem result "scored_chunks") as [scored|]; [|reflexivity].
  destruct (setitem result "chunks" scored); reflexivity.
Qed.

Lemma retrieve_chunks_returns env q c k w :
  exists r, (retrieve_chunks env q c k w).1 = Ok r.
Proof.
  unfold retrieve_chunks, try_except, bind, external, lift, ret.
  destruct (requests_post env _ _ _) as [response|e]; [|by eexists].
  destruct (raise_for_status response); [|by eexists].
  destruct (response_json response) as [result|]; [|by eexists].
  destruct (contains "scored_chunks" result) as [[]|]; [| by eexists..].
  destruct (contains "chunks" result) as [[]|]; cbn [negb]; [by eexists| |by eexists].
  destruct (getitem result "scored_chunks") as [scored|]; [|by eexists].
  destruct (setitem result "chunks" scored); by eexists.
Qed.

Lemma raise_for_status_error response :
  (400 <= status_code response < 600)%Z ->
  raise_for_status response = Raise (HTTPError (status_code response)).
Proof.
  intros [Hlo Hhi]. unfold raise_for_status.
  apply Z.leb_le in Hlo. apply Z.ltb_lt in Hhi. by rewrite Hlo, Hhi.
Qed.

Lemma retrieve_chunks_degrades env request w :
  retrieval_failure env request ->
  retrieve_chunks env (query_text request) (client_id request) (top_k request) w
  = (Ok no_chunks, w ++ [retrieval_call env request]).
Proof.
  intros Hfail.
  unfold retrieve_chunks, try_except, bind, external, lift, ret, retrieval_call.
  destruct Hfail as [e He|response He Hst|response He Hbody];
    unfold retrieval_answer in He; rewrite He.
  - reflexivity.
  - by rewrite raise_for_status_error.
  - destruct (raise_for_status response); [|reflexivity].
    unfold response_json. by rewrite Hbody.
Qed.

Lemma extract_no_chunks : extract_chunks no_chunks = Ok (JList []).
Proof. reflexivity. Qed.

(** ** The handler *)

Lemma query_falsy env request w r w' chunks :
  retrieve_chunks env (query_text request) (client_id request) (top_k request) w
  = (Ok r, w') ->
  extract_chunks r = Ok chunks ->
  truthy chunks = false ->
  query env request w = (Ok no_relevant_information, w').
Proof.
  intros Hr Hc Ht. unfold query, try_except, bind, lift, ret.
  by rewrite Hr, Hc, Ht.
Qed.

Lemma query_truthy env request w r w' chunks :
  retrieve_chunks env (query_text request) (client_id request) (top_k request) w
  = (Ok r, w') ->
  extract_chunks r = Ok chunks ->
  truthy chunks = true ->
  query env request w =
  match generate_response env (query_text request) chunks w' with
  | (Ok a, w'') => (Ok a, w'')
  | (Raise e, w'') => (Raise (HTTPException 500 (exn_str env e)), w'')
  end.
Proof.
  intros Hr Hc Ht. unfold query, try_except, bind, lift, ret, raise.
  rewrite Hr, Hc, Ht. cbn [negb]. by destruct (generate_response _ _ _ _) as [[]].
Qed.

Lemma openai_calls_after_retrieval env request w :
  openai_calls (w ++ [retrieval_call env request]) = openai_calls w.
Proof.
  unfold openai_calls. rewrite List.filter_app. cbn. apply app_nil_r.
Qed.

(** ** The citation of one chunk *)

Lemma slice_to_length n s :
  String.length (slice_to n s) = Nat.min n (String.length s).
Proof.
  unfold slice_to. revert s.
  induction n as [|n IH]; intros [|c s]; cbn; try reflexivity.
  by rewrite IH.
Qed.

Lemma slice_to_short n s : String.length s <= n -> slice_to n s = s.
Proof.
  unfold slice_to. revert s.
  induction n as [|n IH]; intros [|c s]; cbn; intros Hlen; try reflexivity.
  - lia.
  - rewrite IH; [reflexivity | lia].
Qed.

Lemma append_length (s t : string) :
  String.length (s +:+ t) = String.length s + String.length t.
Proof. induction s as [|c s IH]; simpl; [reflexivity | by f_equal]. Qed.

Lemma citation_of_passage i d :
  is_passage (JDict d) = true ->
  citation i (JDict d) =
  Ok (JDict {[ "id" := JInt (Z.of_nat i + 1);
               "document_id" := default JNull (d !! "document_id");
               "chunk_id" := default JNull (d !! "chunk_id");
               "text" := JStr (slice_to preview_budget (passage_text d) +:+ ellipsis);
               "page_number" := default (JStr "N/A") (d !! "page_number");
               "score" := default (JInt 0) (d !! "score") ]}).
Proof.
  unfold is_passage, passage_text, citation, get_none, get, rbind.
  destruct (d !! "text") as [[]|]; intros Hp; try discriminate Hp; reflexivity.
Qed.

Lemma citation_ok_passage i chunk cit :
  citation i chunk = Ok cit -> is_passage chunk = true.
Proof.
  destruct chunk as [| | | | |l|d]; try discriminate.
  unfold is_passage, citation, get_none, get, rbind.
  by destruct (d !! "text") as [[]|].
Qed.

Lemma citation_fields (id document_id chunk_id text page_number score : json) :
  let c : gmap string json :=
    {[ "id" := id; "document_id" := document_id; "chunk_id" := chunk_id;
       "text" := text; "page_number" := page_number; "score" := score ]} in
  c !! "id" = Some id /\ c !! "document_id" = Some document_id /\
  c !! "chunk_id" = Some chunk_id /\ c !! "text" = Some text /\
  c !! "page_number" = Some page_number /\ c !! "score" = Some score.
Proof. repeat split; reflexivity. Qed.

Lemma citation_derived i d :
  is_passage (JDict d) = true ->
  exists c, citation i (JDict d) = Ok (JDict c) /\ derived_from i d c.
Proof.
  intros Hp. eexists. split; [exact (citation_of_passage i d Hp)|].
  apply citation_fields.
Qed.

(** ** The citation loop *)

Lemma loop_body_on_passage env parts cits i d :
  is_passage (JDict d) = true ->
  exists part c,
    citation i (JDict d) = Ok (JDict c) /\ derived_from i d c /\
    loop_body env (parts, cits) (i, JDict d) = Ok (parts ++ [part], cits ++ [JDict c]).
Proof.
  intros Hp. pose proof (citation_of_passage i d Hp) as Hc.
  eexists _, _. split; [exact Hc|]. split; [apply citation_fields|].
  unfold loop_body, context_part, get, rbind. cbn [fst snd]. by rewrite Hc.
Qed.

Lemma for_each_passages env (l : list json) :
  Forall (fun p => is_passage p = true) l ->
  forall k parts cits,
  exists parts' cits',
    for_each (loop_body env) (parts, cits) (enumerate_from k l)
    = Ok (parts ++ parts', cits ++ cits') /\
    length cits' = length l /\
    forall j p, l !! j = Some p ->
      exists d c, p = JDict d /\ cits' !! j = Some (JDict c) /\
                  citation (k + j) p = Ok (JDict c) /\ derived_from (k + j) d c.
Proof.
  induction 1 as [|p l Hp _ IH]; intros k parts cits.
  - exists [], []. rewrite !app_nil_r. by repeat split.
  - destruct p as [| | | | | |d]; try discriminate Hp.
    destruct (loop_body_on_passage env parts cits k d Hp) as (part & c & Hc & Hd & Hstep).
    destruct (IH (S k) (parts ++ [part]) (cits ++ [JDict c]))
      as (parts' & cits' & Hrun & Hlen & Hnth).
    exists (part :: parts'), (JDict c :: cits'). split; [|split].
    + cbn [enumerate_from for_each]. rewrite Hstep. cbn [rbind].
      rewrite Hrun. by rewrite <- !app_assoc.
    + cbn. by rewrite Hlen.
    + intros [|j] q Hq; cbn in Hq.
      * injection Hq as <-. exists d, c. by rewrite Nat.add_0_r.
      * destruct (Hnth j q Hq) as (d' & c' & -> & Hl & Hcq & Hdq).
        exists d', c'. replace (k + S j) with (S k + j) by lia. done.
Qed.

Lemma generate_response_returns env query_ chunks parts cits response answer w :
  build_context_and_citations env chunks = Ok (parts, cits) ->
  let messages := [("system", system_prompt);
                   ("user", user_prompt (join (nl +:+ nl) parts) query_)] in
  chat_completions_create env (OPENAI_MODEL env) messages = Ok response ->
  first_choice_content response = Ok answer ->
  generate_response env query_ (JList chunks) w
  = (Ok (JDict {[ "answer" := answer; "citations" := JList cits ]}),
     w ++ [OpenAIChat (OPENAI_MODEL env) messages]).
Proof.
  intros Hb messages Hchat Hans.
  unfold generate_response, bind, lift, external, ret. cbn [iter].
  rewrite Hb. cbn [fst snd]. fold messages. by rewrite Hchat, Hans.
Qed.

(** * The claims *)

(** C1.  When the chunks extracted from the retrieval result are the empty
    list, the handler returns exactly the dictionary with the answer
    [No relevant information found for your query.] and an empty
    citation list; the only call it has made is the retrieval call, so the
    language model has not been called. *)
Theorem empty_retrieval_short_circuits env request w r w' :
  retrieve_chunks env (query_text request) (client_id request) (top_k request) w
  = (Ok r, w') ->
  extract_chunks r = Ok (JList []) ->
  query env request w
  = (Ok (JDict {[ "answer" := JStr "No relevant information found for your query.";
                  "citations" := JList [] ]}), w') /\
  w' = w ++ [retrieval_call env request] /\
  openai_calls w' = openai_calls w.
Proof.
  intros Hr Hc.
  assert (w' = w ++ [retrieval_call env request]) as Hw.
  { pose proof (retrieve_chunks_log env (query_text request) (client_id request)
                  (top_k request) w) as Hlog.
    by rewrite Hr in Hlog. }
  split; [|split; [exact Hw|]].
  - by apply (query_falsy env request w r w' (JList [])).
  - rewrite Hw. apply openai_calls_after_retrieval.
Qed.

Lemma empty_retrieval_short_circuits_witness :
  query Sample.nothing_found Sample.request []
  = (Ok (JDict {[ "answer" := JStr "No relevant information found for your query.";
                  "citations" := JList [] ]}),
     [retrieval_call Sample.nothing_found Sample.request]) /\
  [retrieval_call Sample.nothing_found Sample.request]
  = [] ++ [retrieval_call Sample.nothing_found Sample.request] /\
  openai_calls [retrieval_call Sample.nothing_found Sample.request] = openai_calls [].
Proof.
  apply (empty_retrieval_short_circuits Sample.nothing_found Sample.request []
           (JDict {[ "scored_chunks" := JList []; "chunks" := JList [] ]})).
  - vm_compute. reflexivity.
  - vm_compute. reflexivity.
Defined.

(** C2.  When the retrieval call fails (the request raises, the service
    answers with an error status, or its body is not JSON), [retrieve_chunks]
    does not raise: it returns the dictionary with an empty [chunks] list, and
    the handler then returns the canned answer instead of an exception. *)
Theorem retrieval_failure_degrades env request w :
  retrieval_failure env request ->
  retrieve_chunks env (query_text request) (client_id request) (top_k request) w
  = (Ok (JDict {[ "chunks" := JList [] ]}), w ++ [retrieval_call env request]) /\
  query env request w
  = (Ok no_relevant_information, w ++ [retrieval_call env request]).
Proof.
  intros Hfail. pose proof (retrieve_chunks_degrades env request w Hfail) as Hr.
  split; [exact Hr|].
  by apply (query_falsy env request w no_chunks _ (JList [])).
Qed.

Lemma retrieval_failure_degrades_witness :
  retrieve_chunks Sample.retrieval_down "What is the refund policy?" "client1" 8 []
  = (Ok (JDict {[ "chunks" := JList [] ]}),
     [] ++ [retrieval_call Sample.retrieval_down Sample.request]) /\
  query Sample.retrieval_down Sample.request []
  = (Ok no_relevant_information,
     [] ++ [retrieval_call Sample.retrieval_down Sample.request]).
Proof.
  apply (retrieval_failure_degrades Sample.retrieval_down Sample.request []).
  apply (network_failure _ _ ConnectionError). reflexivity.
Defined.

(** C3.  When retrieval gave a non-empty chunk list and the completion call
    the handler makes for it (the fixed system prompt and the user prompt
    built from these chunks and the question) raises, the handler raises an
    HTTP 500 error; it returns no answer dictionary of any kind.  Whenever
    the call is reached, the error carried is the one the call raised. *)
Theorem synthesis_failure_propagates env request w r w' chunk chunks e :
  retrieve_chunks env (query_text request) (client_id request) (top_k request) w
  = (Ok r, w') ->
  extract_chunks r = Ok (JList (chunk :: chunks)) ->
  (forall parts cits,
     build_context_and_citations env (chunk :: chunks) = Ok (parts, cits) ->
     chat_completions_create env (OPENAI_MODEL env)
       [("system", system_prompt);
        ("user", user_prompt (join (nl +:+ nl) parts) (query_text request))]
     = Raise e) ->
  exists e',
    (query env request w).1 = Raise (HTTPException 500 (exn_str env e')) /\
    (forall parts cits,
       build_context_and_citations env (chunk :: chunks) = Ok (parts, cits) ->
       e' = e).
Proof.
  intros Hr Hc Hllm.
  rewrite (query_truthy env request w r w' (JList (chunk :: chunks)) Hr Hc eq_refl).
  unfold generate_response, bind, lift, external, ret. cbn [iter].
  destruct (build_context_and_citations env (chunk :: chunks))
    as [[parts cits]|e0] eqn:Hbuilt.
  - cbn [fst snd]. rewrite (Hllm parts cits eq_refl). by exists e.
  - exists e0. split; [reflexivity | discriminate].
Qed.

Lemma synthesis_failure_propagates_witness :
  exists e',
    (query SampleDocs.grounded_prompt_fails Sample.request []).1
    = Raise (HTTPException 500 (exn_str SampleDocs.grounded_prompt_fails e')) /\
    (forall parts cits,
       build_context_and_citations SampleDocs.grounded_prompt_fails
         [JDict Sample.refunds; JDict Sample.short] = Ok (parts, cits) ->
       e' = OpenAIError).
Proof.
  apply (synthesis_failure_propagates SampleDocs.grounded_prompt_fails
           Sample.request []
           (JDict {[ "scored_chunks" := JList [JDict Sample.refunds; JDict Sample.short];
                     "chunks" := JList [JDict Sample.refunds; JDict Sample.short] ]})
           [retrieval_call SampleDocs.grounded_prompt_fails Sample.request]
           (JDict Sample.refunds) [JDict Sample.short] OpenAIError).
  - vm_compute. reflexivity.
  - vm_compute. reflexivity.
  - intros parts cits _. reflexivity.
Defined.

(** C4.  For a sequence of [n] well-formed passages the citation loop
    succeeds with exactly [n] citations; the citation at position [i]
    (counted from 0) has id [i + 1] and every other field taken from the
    passage at position [i], so the ids are [1..n] in input order. *)
Theorem citations_follow_input_order env (passages : list json) :
  Forall (fun p => is_passage p = true) passages ->
  exists parts cits,
    build_context_and_citations env passages = Ok (parts, cits) /\
    length cits = length passages /\
    forall i p, passages !! i = Some p ->
      exists d c, p = JDict d /\ cits !! i = Some (JDict c) /\ derived_from i d c.
Proof.
  intros Hall.
  destruct (for_each_passages env passages Hall 0 [] [])
    as (parts & cits & Hrun & Hlen & Hnth).
  exists parts, cits. split; [exact Hrun|]. split; [exact Hlen|].
  intros i p Hi. destruct (Hnth i p Hi) as (d & c & -> & Hc & _ & Hd).
  by exists d, c.
Qed.

Lemma citations_follow_input_order_witness :
  exists parts cits,
    build_context_and_citations Sample.fine [JDict Sample.refunds; JDict Sample.short]
    = Ok (parts, cits) /\
    length cits = 2 /\
    forall i p, [JDict Sample.refunds; JDict Sample.short] !! i = Some p ->
      exists d c, p = JDict d /\ cits !! i = Some (JDict c) /\ derived_from i d c.
Proof.
  apply (citations_follow_input_order Sample.fine
           [JDict Sample.refunds; JDict Sample.short]).
  repeat constructor.
Defined.

(** ** What a request sends to the outside *)

Lemma generate_response_log env q chunks w :
  exists tl, (generate_response env q chunks w).2 = w ++ tl /\
             Forall (fun c => is_openai_call c = true) tl.
Proof.
  unfold generate_response, bind, lift, external, ret.
  destruct (iter chunks) as [items|]; [|exists []; by rewrite app_nil_r].
  destruct (build_context_and_citations env items) as [built|];
    [|exists []; by rewrite app_nil_r].
  eexists (cons _ nil). split.
  - destruct (chat_completions_create env _ _) as [response|]; [|reflexivity].
    by destruct (first_choice_content response).
  - by repeat constructor.
Qed.

Lemma query_log env request w :
  exists tl, (query env request w).2 = w ++ retrieval_call env request :: tl /\
             Forall (fun c => is_openai_call c = true) tl.
Proof.
  pose proof (retrieve_chunks_log env (query_text request) (client_id request)
                (top_k request) w) as Hlog.
  destruct (retrieve_chunks_returns env (query_text request) (client_id request)
              (top_k request) w) as [r Hr].
  unfold query, try_except, bind, lift, ret, raise.
  destruct (retrieve_chunks env _ _ _ w) as [res w']. cbn in Hlog, Hr. subst res w'.
  fold (retrieval_call env request).
  destruct (extract_chunks r) as [chunks|].
  - destruct (truthy chunks); cbn [negb].
    + destruct (generate_response_log env (query_text request) chunks
                  (w ++ [retrieval_call env request])) as (tl & Htl & Hall).
      exists tl. split; [|exact Hall].
      destruct (generate_response _ _ _ _) as [[] w'']; cbn in Htl |- *;
        by rewrite Htl, <- app_assoc.
    + exists []. by split.
  - exists []. by split.
Qed.

Lemma verify_config_log env w :
  verify_config env w = (Ok true, w) \/ exists e, verify_config env w = (Raise e, w).
Proof.
  unfold verify_config. destruct (validate_config env) as [[] msg].
  - by left.
  - right. by eexists.
Qed.

(** C5, as amended.  A body without [client_id] or without [query] is
    rejected and no external service is called.  A body whose query text is
    the empty string is not rejected: with a valid configuration it reaches
    the handler, which sends the empty query to the retrieval service. *)
Theorem missing_field_rejected_empty_query_forwarded env b :
  (body_client_id b = None \/ body_query b = None -> rejected_without_call env b) /\
  (forall c w,
     (validate_config env).1 = true ->
     body_query b = Some "" -> body_client_id b = Some c ->
     exists k tl,
       (post_query env b w).2
       = w ++ RagiePost (retrieval_url env) (JDict (retrieval_payload "" c k))
                        (retrieval_headers env) :: tl).
Proof.
  split.
  - intros Hmiss w. unfold post_query, bind, lift.
    destruct (verify_config_log env w) as [-> | [e ->]]; [|by exists e].
    exists RequestValidationError. unfold parse_QueryRequest.
    destruct Hmiss as [-> | ->]; [by destruct (body_query b) | reflexivity].
  - intros c w Hcfg Hq Hc. unfold post_query, bind, lift, verify_config, ret.
    destruct (validate_config env) as [valid msg]. cbn in Hcfg. subst valid.
    unfold parse_QueryRequest. rewrite Hq, Hc.
    match goal with |- context [query env ?rq w] =>
      destruct (query_log env rq w) as (tl & Htl & _); exists (top_k rq), tl
    end.
    exact Htl.
Qed.

Lemma missing_field_rejected_empty_query_forwarded_witness :
  rejected_without_call Sample.fine Sample.no_client /\
  exists k tl,
    (post_query Sample.fine Sample.empty_query []).2
    = [] ++ RagiePost (retrieval_url Sample.fine)
                      (JDict (retrieval_payload "" "client1" k))
                      (retrieval_headers Sample.fine) :: tl.
Proof.
  split.
  - apply (proj1 (missing_field_rejected_empty_query_forwarded
                    Sample.fine Sample.no_client)).
    left. reflexivity.
  - apply (proj2 (missing_field_rejected_empty_query_forwarded
                    Sample.fine Sample.empty_query) "client1" []); reflexivity.
Defined.

(** C5 as stated fails: a body whose query text is empty is accepted, and
    the retrieval service is called with the empty query. *)
Lemma empty_query_reaches_retrieval :
  body_query Sample.empty_query = Some "" /\
  (exists tl, (post_query Sample.fine Sample.empty_query []).2
              = RagiePost (retrieval_url Sample.fine)
                          (JDict (retrieval_payload "" "client1" 8))
                          (retrieval_headers Sample.fine) :: tl) /\
  ~ rejected_without_call Sample.fine Sample.empty_query.
Proof.
  assert (exists tl, (post_query Sample.fine Sample.empty_query []).2
              = RagiePost (retrieval_url Sample.fine)
                          (JDict (retrieval_payload "" "client1" 8))
                          (retrieval_headers Sample.fine) :: tl) as Hcall.
  { eexists. vm_compute. reflexivity. }
  split; [reflexivity|]. split; [exact Hcall|].
  intros Hrej. destruct (Hrej []) as [e He]. destruct Hcall as [tl Htl].
  rewrite He in Htl. discriminate Htl.
Qed.

(** C6, as amended.  For every passage whose text is shorter than the
    preview budget, the citation preview is the whole passage text followed
    by the marker [...]: the marker is appended whatever the length. *)
Theorem short_text_preview_keeps_marker i d s :
  d !! "text" = Some (JStr s) ->
  String.length s < preview_budget ->
  exists c, citation i (JDict d) = Ok (JDict c) /\
            c !! "text" = Some (JStr (s +:+ ellipsis)).
Proof.
  intros Ht Hlen.
  assert (is_passage (JDict d) = true) as Hp by (unfold is_passage; by rewrite Ht).
  destruct (citation_derived i d Hp) as (c & Hc & _ & _ & _ & Htext & _).
  exists c. split; [exact Hc|].
  rewrite Htext. unfold passage_text. rewrite Ht.
  rewrite slice_to_short by lia. reflexivity.
Qed.

Lemma short_text_preview_keeps_marker_witness :
  exists c, citation 0 (JDict Sample.short) = Ok (JDict c) /\
            c !! "text" = Some (JStr ("hi" +:+ ellipsis)).
Proof.
  apply (short_text_preview_keeps_marker 0 Sample.short "hi").
  - reflexivity.
  - unfold preview_budget. cbn. lia.
Defined.

(** C6 as stated fails: the two-character text [hi] is shorter than the
    budget, and its preview is [hi...], not [hi]. *)
Lemma short_text_not_used_as_is :
  Sample.short !! "text" = Some (JStr "hi") /\
  String.length "hi" < preview_budget /\
  exists c, citation 0 (JDict Sample.short) = Ok (JDict c) /\
            c !! "text" = Some (JStr "hi...") /\
            c !! "text" <> Some (JStr "hi").
Proof.
  split; [reflexivity|]. split; [unfold preview_budget; cbn; lia|].
  eexists. split; [vm_compute; reflexivity|].
  split; [reflexivity | discriminate].
Qed.

(** C7.  Whatever the length of a passage's text, the preview in its
    citation is a string of at most budget plus marker length characters. *)
Theorem preview_length_bounded i d :
  is_passage (JDict d) = true ->
  exists c s, citation i (JDict d) = Ok (JDict c) /\
              c !! "text" = Some (JStr s) /\
              String.length s <= preview_budget + String.length ellipsis.
Proof.
  intros Hp.
  destruct (citation_derived i d Hp) as (c & Hc & _ & _ & _ & Htext & _).
  exists c, (slice_to preview_budget (passage_text d) +:+ ellipsis).
  split; [exact Hc|]. split; [exact Htext|].
  rewrite append_length, slice_to_length. lia.
Qed.

Lemma preview_length_bounded_witness :
  String.length Sample.long_text = 100 * 100 /\
  (exists c s, citation 0 (JDict Sample.long) = Ok (JDict c) /\
               c !! "text" = Some (JStr s) /\
               String.length s <= preview_budget + String.length ellipsis) /\
  (exists c s, citation 0 (JDict {[ "text" := JStr "" ]}) = Ok (JDict c) /\
               c !! "text" = Some (JStr s) /\
               String.length s <= preview_budget + String.length ellipsis).
Proof.
  split; [vm_compute; reflexivity|]. split.
  - apply (preview_length_bounded 0 Sample.long). vm_compute. reflexivity.
  - apply (preview_length_bounded 0 {[ "text" := JStr "" ]}). reflexivity.
Defined.

(** C8, as amended.  A passage without a [page_number] field gets the
    citation page number [N/A]; a [page_number] the passage carries is
    copied into the citation as it is, whatever its value. *)
Theorem page_number_default i d :
  is_passage (JDict d) = true ->
  exists c, citation i (JDict d) = Ok (JDict c) /\
            (d !! "page_number" = None -> c !! "page_number" = Some (JStr "N/A")) /\
            (forall v, d !! "page_number" = Some v -> c !! "page_number" = Some v).
Proof.
  intros Hp.
  destruct (citation_derived i d Hp) as (c & Hc & _ & _ & _ & _ & Hpage & _).
  exists c. split; [exact Hc|]. split.
  - intros Hnone. by rewrite Hpage, Hnone.
  - intros v Hv. by rewrite Hpage, Hv.
Qed.

Lemma page_number_default_witness :
  exists c, citation 0 (JDict Sample.short) = Ok (JDict c) /\
            (Sample.short !! "page_number" = None ->
             c !! "page_number" = Some (JStr "N/A")) /\
            (forall v, Sample.short !! "page_number" = Some v ->
                       c !! "page_number" = Some v).
Proof.
  apply (page_number_default 0 Sample.short). reflexivity.
Defined.

(** C8 as stated fails: a passage whose [page_number] is null yields a
    citation whose [page_number] is null, not [N/A]. *)
Lemma null_page_number_is_copied :
  is_passage (JDict Sample.unnumbered) = true /\
  Sample.unnumbered !! "page_number" = Some JNull /\
  exists c, citation 0 (JDict Sample.unnumbered) = Ok (JDict c) /\
            c !! "page_number" = Some JNull /\
            c !! "page_number" <> Some (JStr "N/A").
Proof.
  split; [reflexivity|]. split; [reflexivity|].
  eexists. split; [vm_compute; reflexivity|].
  split; [reflexivity | discriminate].
Qed.

(** C9.  The partition of a client id is [client_] followed by the id; it
    is a function of the id alone, distinct ids have distinct partitions, a
    partition never equals the raw id, and the one retrieval call a query
    makes carries the partition of the request's client id in its payload. *)
Theorem partition_scopes_every_retrieval :
  (forall c, partition_of c = "client_" +:+ c) /\
  (forall a b, partition_of a = partition_of b <-> a = b) /\
  (forall c, partition_of c <> c) /\
  (forall q c k,
     retrieval_payload q c k !! "partition" = Some (JStr (partition_of c))) /\
  (forall env request w,
     exists tl,
       (query env request w).2
       = w ++ RagiePost (retrieval_url env)
                        (JDict (retrieval_payload (query_text request)
                                  (client_id request) (top_k request)))
                        (retrieval_headers env) :: tl /\
       Forall (fun c => is_ragie_call c = false) tl).
Proof.
  split; [reflexivity|]. split; [|split; [|split]].
  - intros a b. split; [|by intros ->].
    unfold partition_of. simpl. intros Heq. by injection Heq.
  - intros c Heq. apply (f_equal String.length) in Heq.
    unfold partition_of in Heq. rewrite append_length in Heq. cbn in Heq. lia.
  - intros q c k. reflexivity.
  - intros env request w. destruct (query_log env request w) as (tl & Htl & Hall).
    exists tl. split; [exact Htl|].
    eapply Forall_impl; [exact Hall|].
    intros x Hx. unfold is_ragie_call. by rewrite Hx.
Qed.

Lemma partition_scopes_every_retrieval_witness :
  partition_of "client1" = "client_client1" /\
  partition_of "a" <> partition_of "b" /\
  retrieval_payload "What is the refund policy?" "client1" 8 !! "partition"
  = Some (JStr (partition_of "client1")).
Proof.
  split; [|split].
  - apply (proj1 partition_scopes_every_retrieval).
  - intros Heq.
    pose proof (proj1 (proj1 (proj2 partition_scopes_every_retrieval) "a" "b") Heq)
      as Hab.
    discriminate Hab.
  - apply (proj1 (proj2 (proj2 (proj2 partition_scopes_every_retrieval)))).
Defined.

(** C10.  A passage without a [document_id] (or [chunk_id]) field still
    yields its citation, and that field of the citation is null. *)
Theorem missing_ids_become_null i d :
  is_passage (JDict d) = true ->
  exists c, citation i (JDict d) = Ok (JDict c) /\
            (d !! "document_id" = None -> c !! "document_id" = Some JNull) /\
            (d !! "chunk_id" = None -> c !! "chunk_id" = Some JNull).
Proof.
  intros Hp.
  destruct (citation_derived i d Hp) as (c & Hc & _ & Hdoc & Hchunk & _).
  exists c. split; [exact Hc|].
  split; intros Hnone; [by rewrite Hdoc, Hnone | by rewrite Hchunk, Hnone].
Qed.

Lemma missing_ids_become_null_witness :
  exists c, citation 0 (JDict Sample.short) = Ok (JDict c) /\
            (Sample.short !! "document_id" = None ->
             c !! "document_id" = Some JNull) /\
            (Sample.short !! "chunk_id" = None -> c !! "chunk_id" = Some JNull).
Proof.
  apply (missing_ids_become_null 0 Sample.short). reflexivity.
Defined.

(** ** A complete run *)

(** Two passages are retrieved for tenant [client1]: the retrieval call is
    scoped to [client_client1], one completion call follows, and the answer
    comes back with two citations numbered 1 and 2. *)
Example refund_policy_run :
  match query Sample.fine Sample.request [] with
  | (Ok (JDict a), [RagiePost _ (JDict p) _; OpenAIChat _ _]) =>
      p !! "partition" = Some (JStr "client_client1") /\
      a !! "answer" = Some (JStr "Within 30 days [1].") /\
      exists c1 c2,
        a !! "citations" = Some (JList [JDict c1; JDict c2]) /\
        c1 !! "id" = Some (JInt 1) /\ c2 !! "id" = Some (JInt 2) /\
        c2 !! "text" = Some (JStr "hi...")
  | _ => False
  end.
Proof.
  vm_compute. split; [reflexivity|]. split; [reflexivity|].
  eexists _, _. split; [reflexivity|]. by repeat split.
Qed.

(** * Further properties of the code *)

(** ** Configuration *)

Lemma not_set_false v : not_set v = false <-> exists s, v = Some s /\ s <> "".
Proof.
  destruct v as [s|]; cbn.
  - rewrite String.eqb_neq. split; [by exists s | by intros (? & [= <-] & ?)].
  - split; [discriminate | by intros (? & ? & _)].
Qed.

(** X1.  The configuration is reported valid exactly when the Ragie token and
    the OpenAI key are both set to non-empty strings and the deployment is not
    a production one that still has the development secret; an error message
    is returned exactly when it is reported invalid. *)
Theorem validate_config_valid_iff env :
  ((validate_config env).1 = true <->
   (exists t, RAGIE_API_TOKEN env = Some t /\ t <> "") /\
   (exists k, OPENAI_API_KEY env = Some k /\ k <> "") /\
   ~ (API_ENV env = "production" /\
      API_SECRET_KEY env = "dev-key-change-in-production")) /\
  ((validate_config env).1 = true <-> (validate_config env).2 = None).
Proof.
  unfold validate_config.
  pose proof (not_set_false (RAGIE_API_TOKEN env)) as Ht.
  pose proof (not_set_false (OPENAI_API_KEY env)) as Hk.
  destruct (not_set (RAGIE_API_TOKEN env)).
  { cbn. split; split; try discriminate. intros (Hx & _). by apply Ht in Hx. }
  destruct (not_set (OPENAI_API_KEY env)).
  { cbn. split; split; try discriminate. intros (_ & Hx & _). by apply Hk in Hx. }
  destruct (String.eqb (API_ENV env) "production") eqn:He;
    destruct (String.eqb (API_SECRET_KEY env) "dev-key-change-in-production") eqn:Hs;
    cbn; split; split; try discriminate; try done.
  - apply String.eqb_eq in He, Hs. intros (_ & _ & Hn). by destruct Hn.
  - intros _. split; [by apply Ht|]. split; [by apply Hk|].
    apply String.eqb_neq in Hs. by intros [_ ?].
  - intros _. split; [by apply Ht|]. split; [by apply Hk|].
    apply String.eqb_neq in He. by intros [? _].
  - intros _. split; [by apply Ht|]. split; [by apply Hk|].
    apply String.eqb_neq in He. by intros [? _].
Qed.

(** X2.  While the application is up (its OpenAI key is set, be it to the
    empty string) and its configuration is reported invalid, the query route
    answers every JSON body whose present fields have the declared types,
    with or without the required fields, with an HTTP 500 whose detail
    starts with [Server configuration error: ], and calls no external
    service. *)
Theorem invalid_config_blocks_query env b w :
  is_Some (OPENAI_API_KEY env) ->
  (validate_config env).1 = false ->
  exists message,
    post_query env b w
    = (Raise (HTTPException 500 ("Server configuration error: " +:+ message)), w).
Proof.
  intros _ Hinv. unfold post_query, bind, verify_config, raise.
  destruct (validate_config env) as [valid msg]. cbn in Hinv. subst valid.
  by exists (format_optional msg).
Qed.

Lemma invalid_config_blocks_query_witness :
  exists message,
    post_query SampleDocs.production Sample.no_client []
    = (Raise (HTTPException 500 ("Server configuration error: " +:+ message)), []).
Proof.
  apply (invalid_config_blocks_query SampleDocs.production Sample.no_client []).
  - by eexists.
  - reflexivity.
Defined.

(** ** More on the retrieval adapter *)

Lemma raise_for_status_ok response :
  ~ (400 <= status_code response < 600)%Z -> raise_for_status response = Ok tt.
Proof.
  intros Hst. unfold raise_for_status.
  destruct (400 <=? status_code response)%Z eqn:Hlo;
    destruct (status_code response <? 600)%Z eqn:Hhi; try reflexivity.
  apply Z.leb_le in Hlo. apply Z.ltb_lt in Hhi. lia.
Qed.

Lemma retrieve_chunks_run env q c k w :
  exists r,
    retrieve_chunks env q c k w
    = (Ok r, w ++ [RagiePost (retrieval_url env) (JDict (retrieval_payload q c k))
                             (retrieval_headers env)]).
Proof.
  destruct (retrieve_chunks_returns env q c k w) as [r Hr].
  pose proof (retrieve_chunks_log env q c k w) as Hlog.
  exists r. destruct (retrieve_chunks env q c k w) as [res w'].
  cbn in Hr, Hlog. by subst.
Qed.

(** X3.  [retrieve_chunks] never raises: whatever the service does, it
    returns a value after exactly one request to the retrieval endpoint. *)
Theorem retrieve_chunks_always_returns env q c k w :
  exists r,
    retrieve_chunks env q c k w
    = (Ok r, w ++ [RagiePost (retrieval_url env) (JDict (retrieval_payload q c k))
                             (retrieval_headers env)]).
Proof. exact (retrieve_chunks_run env q c k w). Qed.

Lemma retrieve_chunks_body env request w body :
  retrieval_body env request body ->
  retrieve_chunks env (query_text request) (client_id request) (top_k request) w
  = (match
       (let? has_scored := contains "scored_chunks" body in
        let? remap := (if has_scored : bool
                       then let? has_chunks := contains "chunks" body in
                            Ok (negb has_chunks)
                       else Ok false) in
        if remap : bool
        then let? scored := getitem body "scored_chunks" in
             setitem body "chunks" scored
        else Ok body)
     with
     | Ok r => Ok r
     | Raise _ => Ok no_chunks
     end, w ++ [retrieval_call env request]).
Proof.
  intros (response & Hans & Hst & Hbody). unfold retrieval_answer in Hans.
  unfold retrieve_chunks, try_except, bind, external, lift, ret, retrieval_call.
  rewrite Hans, (raise_for_status_ok _ Hst). unfold response_json. rewrite Hbody.
  unfold rbind.
  destruct (contains "scored_chunks" body) as [[]|]; [| reflexivity..].
  destruct (contains "chunks" body) as [[]|]; cbn [negb]; [reflexivity| |reflexivity].
  destruct (getitem body "scored_chunks") as [scored|]; [|reflexivity].
  by destruct (setitem body "chunks" scored).
Qed.

Lemma retrieve_chunks_dict env request w d :
  retrieval_body env request (JDict d) ->
  exists d',
    retrieve_chunks env (query_text request) (client_id request) (top_k request) w
    = (Ok (JDict d'), w ++ [retrieval_call env request]) /\
    (forall key, key <> "chunks" -> d' !! key = d !! key) /\
    (is_Some (d !! "chunks") -> d' = d) /\
    extract_chunks (JDict d')
    = Ok (default (default (JList []) (d !! "scored_chunks")) (d !! "chunks")).
Proof.
  intros Hbody. rewrite (retrieve_chunks_body env request w _ Hbody).
  unfold contains, getitem, setitem, rbind, extract_chunks, get.
  destruct (d !! "scored_chunks") as [scored|] eqn:Hs;
    destruct (d !! "chunks") as [chunks|] eqn:Hc.
  - rewrite !bool_decide_eq_true_2 by eauto. cbn.
    exists d. rewrite Hs, Hc. by repeat split.
  - rewrite bool_decide_eq_true_2 by eauto.
    rewrite bool_decide_eq_false_2 by (by intros [? ?]). cbn.
    exists (<["chunks" := scored]> d). split; [reflexivity|].
    split; [|split].
    + intros key Hkey. by rewrite lookup_insert_ne.
    + by intros [? ?].
    + rewrite lookup_insert_eq. reflexivity.
  - rewrite bool_decide_eq_false_2 by (by intros [? ?]). cbn.
    exists d. rewrite Hs, Hc. by repeat split.
  - rewrite bool_decide_eq_false_2 by (by intros [? ?]). cbn.
    exists d. rewrite Hs, Hc. by repeat split.
Qed.

(** X4.  When the service answers with a JSON object, [retrieve_chunks]
    returns that object with [chunks] set to the value of [scored_chunks]
    if [chunks] was absent and [scored_chunks] present; every other key is
    untouched, an object that already has [chunks] is returned as it is, and
    the chunks the handler then reads are [chunks], else [scored_chunks],
    else the empty list. *)
Theorem retrieve_chunks_normalises env request w d :
  retrieval_body env request (JDict d) ->
  exists d',
    retrieve_chunks env (query_text request) (client_id request) (top_k request) w
    = (Ok (JDict d'), w ++ [retrieval_call env request]) /\
    d' !! "chunks" = match d !! "chunks" with
                     | Some chunks => Some chunks
                     | None => d !! "scored_chunks"
                     end /\
    (forall key, key <> "chunks" -> d' !! key = d !! key) /\
    (is_Some (d !! "chunks") -> d' = d) /\
    extract_chunks (JDict d')
    = Ok (default (default (JList []) (d !! "scored_chunks")) (d !! "chunks")).
Proof.
  intros Hbody. rewrite (retrieve_chunks_body env request w _ Hbody).
  unfold contains, getitem, setitem, rbind, extract_chunks, get.
  destruct (d !! "scored_chunks") as [scored|] eqn:Hs;
    destruct (d !! "chunks") as [chunks|] eqn:Hc.
  - rewrite !bool_decide_eq_true_2 by eauto. cbn.
    exists d. rewrite Hs, Hc. by repeat split.
  - rewrite bool_decide_eq_true_2 by eauto.
    rewrite bool_decide_eq_false_2 by (by intros [? ?]). cbn.
    exists (<["chunks" := scored]> d). split; [reflexivity|].
    split; [apply lookup_insert_eq|]. split; [|split].
    + intros key Hkey. by rewrite lookup_insert_ne.
    + by intros [? ?].
    + rewrite lookup_insert_eq. reflexivity.
  - rewrite bool_decide_eq_false_2 by (by intros [? ?]). cbn.
    exists d. rewrite Hs, Hc. by repeat split.
  - rewrite bool_decide_eq_false_2 by (by intros [? ?]). cbn.
    exists d. rewrite Hs, Hc. by repeat split.
Qed.

Lemma retrieve_chunks_normalises_witness :
  exists d',
    retrieve_chunks (SampleDocs.replying (JDict SampleDocs.scored_only) [])
      "What is the refund policy?" "client1" 8 []
    = (Ok (JDict d'),
       [] ++ [retrieval_call (SampleDocs.replying (JDict SampleDocs.scored_only) [])
                             Sample.request]) /\
    d' !! "chunks" = match SampleDocs.scored_only !! "chunks" with
                     | Some chunks => Some chunks
                     | None => SampleDocs.scored_only !! "scored_chunks"
                     end /\
    (forall key, key <> "chunks" -> d' !! key = SampleDocs.scored_only !! key) /\
    (is_Some (SampleDocs.scored_only !! "chunks") -> d' = SampleDocs.scored_only) /\
    extract_chunks (JDict d')
    = Ok (default (default (JList []) (SampleDocs.scored_only !! "scored_chunks"))
                  (SampleDocs.scored_only !! "chunks")).
Proof.
  apply (retrieve_chunks_normalises
           (SampleDocs.replying (JDict SampleDocs.scored_only) [])
           Sample.request [] SampleDocs.scored_only).
  eexists. split; [reflexivity|]. split; [cbn; lia | reflexivity].
Defined.

(** ** Bodies that are not objects *)

Lemma prefix_app (p r : string) : String.prefix p (p +:+ r) = true.
Proof.
  induction p as [|c p IH]; simpl; [by destruct r|].
  destruct (ascii_dec c c); [exact IH | done].
Qed.

Lemma prefix_split (p s : string) :
  String.prefix p s = true -> exists r, s = p +:+ r.
Proof.
  revert s. induction p as [|c p IH]; intros s Hp; [by exists s|].
  destruct s as [|c' s]; simpl in Hp; [discriminate|].
  destruct (ascii_dec c c') as [<-|]; [|discriminate].
  destruct (IH s Hp) as [r ->]. by exists r.
Qed.

Lemma is_substring_unfold (sub s : string) :
  is_substring sub s
  = if String.prefix sub s then true
    else match s with
         | EmptyString => false
         | String _ s' => is_substring sub s'
         end.
Proof. by destruct s. Qed.

Lemma is_substring_split (sub s : string) :
  is_substring sub s = true <-> exists a r, s = a +:+ sub +:+ r.
Proof.
  split.
  - induction s as [|c s IH]; rewrite is_substring_unfold;
      destruct (String.prefix sub _) eqn:Hp; try discriminate.
    + intros _. destruct (prefix_split _ _ Hp) as [r Hr]. by exists "", r.
    + intros _. destruct (prefix_split _ _ Hp) as [r Hr]. by exists "", r.
    + intros Hs. destruct (IH Hs) as (a & r & ->). by exists (String c a), r.
  - intros (a & r & ->). induction a as [|c a IH]; rewrite is_substring_unfold.
    + change ("" +:+ sub +:+ r) with (sub +:+ r). by rewrite prefix_app.
    + change (String c a +:+ sub +:+ r) with (String c (a +:+ sub +:+ r)).
      by destruct (String.prefix sub (String c (a +:+ sub +:+ r))).
Qed.

Lemma append_assoc (a b c : string) : (a +:+ b) +:+ c = a +:+ (b +:+ c).
Proof.
  induction a as [|x a IH]; [reflexivity|].
  change (String x ((a +:+ b) +:+ c) = String x (a +:+ b +:+ c)). by f_equal.
Qed.

Lemma scored_chunks_has_chunks s :
  is_substring "scored_chunks" s = true -> is_substring "chunks" s = true.
Proof.
  intros Hs. apply is_substring_split in Hs as (a & r & ->).
  apply is_substring_split. exists (a +:+ "scored_"), r.
  by rewrite append_assoc.
Qed.

(** X5.  A body that is null, a boolean or a number makes the membership
    test of [retrieve_chunks] raise inside its [try], so the adapter degrades
    to no chunks and the handler returns the canned answer. *)
Theorem scalar_body_degrades env request w body :
  retrieval_body env request body ->
  is_scalar body = true ->
  query env request w
  = (Ok no_relevant_information, w ++ [retrieval_call env request]).
Proof.
  intros Hbody Hsc.
  apply (query_falsy env request w no_chunks _ (JList [])); [|reflexivity..].
  rewrite (retrieve_chunks_body env request w _ Hbody).
  by destruct body.
Qed.

Lemma scalar_body_degrades_witness :
  query (SampleDocs.replying JNull []) Sample.request []
  = (Ok no_relevant_information,
     [] ++ [retrieval_call (SampleDocs.replying JNull [])
                           Sample.request]).
Proof.
  apply (scalar_body_degrades _ Sample.request [] JNull); [|reflexivity].
  eexists. split; [reflexivity|]. split; [cbn; lia | reflexivity].
Defined.

(** X6.  A body that is a JSON string is never remapped (a string that
    contains [scored_chunks] contains [chunks]); [retrieve_chunks] returns
    it as it is, and the handler, which calls [.get] on it, fails with an
    HTTP 500 without calling the language model. *)
Theorem string_body_fails env request w s :
  retrieval_body env request (JStr s) ->
  retrieve_chunks env (query_text request) (client_id request) (top_k request) w
  = (Ok (JStr s), w ++ [retrieval_call env request]) /\
  query env request w
  = (Raise (HTTPException 500 (exn_str env AttributeError)),
     w ++ [retrieval_call env request]).
Proof.
  intros Hbody.
  assert (retrieve_chunks env (query_text request) (client_id request)
            (top_k request) w
          = (Ok (JStr s), w ++ [retrieval_call env request])) as Hr.
  { rewrite (retrieve_chunks_body env request w _ Hbody).
    unfold contains, rbind.
    destruct (is_substring "scored_chunks" s) eqn:Hs; [|reflexivity].
    by rewrite (scored_chunks_has_chunks s Hs). }
  split; [exact Hr|].
  unfold query, try_except, bind, lift, raise. by rewrite Hr.
Qed.

Lemma string_body_fails_witness :
  retrieve_chunks (SampleDocs.replying (JStr "scored_chunks") [])
    "What is the refund policy?" "client1" 8 []
  = (Ok (JStr "scored_chunks"),
     [] ++ [retrieval_call (SampleDocs.replying (JStr "scored_chunks") [])
                           Sample.request]) /\
  query (SampleDocs.replying (JStr "scored_chunks") []) Sample.request []
  = (Raise (HTTPException 500
              (exn_str (SampleDocs.replying (JStr "scored_chunks") [])
                       AttributeError)),
     [] ++ [retrieval_call (SampleDocs.replying (JStr "scored_chunks") [])
                           Sample.request]).
Proof.
  apply (string_body_fails _ Sample.request [] "scored_chunks").
  eexists. split; [reflexivity|]. split; [cbn; lia | reflexivity].
Defined.

(** ** What the handler can do *)

Lemma generate_response_calls env q chunks w :
  (generate_response env q chunks w).2 = w \/
  exists context,
    (generate_response env q chunks w).2 = w ++ [completion_call env context q].
Proof.
  unfold generate_response, bind, lift, external, ret.
  destruct (iter chunks) as [items|]; [|by left].
  destruct (build_context_and_citations env items) as [built|]; [|by left].
  right. exists (join (nl +:+ nl) built.1). unfold completion_call.
  destruct (chat_completions_create env _ _) as [response|]; [|reflexivity].
  by destruct (first_choice_content response).
Qed.

(** X7.  The handler raises nothing but an HTTP 500: every run either
    returns a value or raises [HTTPException(500)] whose detail is the text
    of the exception met. *)
Theorem query_raises_only_500 env request w :
  (exists a, (query env request w).1 = Ok a) \/
  (exists e, (query env request w).1 = Raise (HTTPException 500 (exn_str env e))).
Proof.
  unfold query, try_except, raise.
  match goal with |- context [bind ?m ?k w] => destruct (bind m k w) as [[a|e] w'] end.
  - left. by exists a.
  - right. by exists e.
Qed.

(** X8.  One run of the handler sends exactly one request to the retrieval
    service, first, and then at most one completion request, to the
    configured model with the fixed system prompt and the user's question. *)
Theorem query_call_discipline env request w :
  (query env request w).2 = w ++ [retrieval_call env request] \/
  exists context,
    (query env request w).2
    = w ++ [retrieval_call env request;
            completion_call env context (query_text request)].
Proof.
  destruct (retrieve_chunks_run env (query_text request)
              (client_id request) (top_k request) w) as [r Hr].
  fold (retrieval_call env request) in Hr.
  unfold query, try_except, bind, lift, ret, raise. rewrite Hr.
  destruct (extract_chunks r) as [chunks|]; [|by left].
  destruct (truthy chunks); cbn [negb]; [|by left].
  destruct (generate_response_calls env (query_text request) chunks
              (w ++ [retrieval_call env request])) as [Hw | [context Hw]].
  - left. by destruct (generate_response _ _ _ _) as [[] w''].
  - right. exists context.
    destruct (generate_response _ _ _ _) as [[] w'']; cbn in Hw |- *;
      by rewrite Hw, <- app_assoc.
Qed.

(** ** The handler on an object body *)

Lemma for_each_context env (l : list json) :
  Forall (fun p => is_passage p = true) l ->
  forall k parts cits,
  exists parts' cits',
    for_each (loop_body env) (parts, cits) (enumerate_from k l)
    = Ok (parts ++ parts', cits ++ cits') /\
    length parts' = length l /\
    forall j d, l !! j = Some (JDict d) ->
      parts' !! j = Some ("[" +:+ pretty (k + j + 1) +:+ "] " +:+ passage_text d) /\
      exists c, cits' !! j = Some (JDict c) /\
                c !! "id" = Some (JInt (Z.of_nat (k + j) + 1)).
Proof.
  induction 1 as [|p l Hp _ IH]; intros k parts cits.
  - exists [], []. rewrite !app_nil_r. by repeat split.
  - destruct p as [| | | | | |d]; try discriminate Hp.
    destruct (citation_derived k d Hp) as (c & Hc & Hid & _).
    assert (context_part env k (JDict d)
            = Ok ("[" +:+ pretty (k + 1) +:+ "] " +:+ passage_text d)) as Hpart.
    { unfold context_part, get, rbind, passage_text, format_value.
      unfold is_passage in Hp. by destruct (d !! "text") as [[]|]. }
    destruct (IH (S k) (parts ++ ["[" +:+ pretty (k + 1) +:+ "] " +:+ passage_text d])
                 (cits ++ [JDict c])) as (parts' & cits' & Hrun & Hlen & Hnth).
    eexists (_ :: parts'), (JDict c :: cits'). split; [|split].
    + cbn [enumerate_from for_each]. unfold loop_body at 1. cbn [fst snd].
      rewrite Hpart, Hc. cbn [rbind]. rewrite Hrun. by rewrite <- !app_assoc.
    + cbn. by rewrite Hlen.
    + intros [|j] q Hq; cbn in Hq.
      * injection Hq as <-. rewrite !Nat.add_0_r. split; [reflexivity|]. by exists c.
      * replace (k + S j) with (S k + j) by lia. exact (Hnth j q Hq).
Qed.

Lemma query_on_object env request w d :
  retrieval_body env request (JDict d) ->
  let chunks := default (default (JList []) (d !! "scored_chunks")) (d !! "chunks") in
  query env request w =
  if truthy chunks then
    match generate_response env (query_text request) chunks
            (w ++ [retrieval_call env request]) with
    | (Ok a, w') => (Ok a, w')
    | (Raise e, w') => (Raise (HTTPException 500 (exn_str env e)), w')
    end
  else (Ok no_relevant_information, w ++ [retrieval_call env request]).
Proof.
  intros Hbody chunks.
  destruct (retrieve_chunks_dict env request w d Hbody) as (d' & Hr & _ & _ & Hx).
  fold chunks in Hx. destruct (truthy chunks) eqn:Ht.
  - exact (query_truthy env request w _ _ chunks Hr Hx Ht).
  - exact (query_falsy env request w _ _ chunks Hr Hx Ht).
Qed.

(** X9.  When the service answers with an object whose chunks are a non-empty
    list of well-formed passages and the completion call the handler makes
    for them (the fixed system prompt and the user prompt built from these
    passages and the question) returns at least one choice, the handler
    returns the content of the first choice (null when it has none) as the
    answer, with one citation per passage in retrieval order, after one
    retrieval and one completion call. *)
Theorem query_answers_with_citations env request w d passages choice rest :
  retrieval_body env request (JDict d) ->
  default (default (JList []) (d !! "scored_chunks")) (d !! "chunks")
  = JList passages ->
  passages <> [] ->
  Forall (fun p => is_passage p = true) passages ->
  (forall parts cits,
     build_context_and_citations env passages = Ok (parts, cits) ->
     chat_completions_create env (OPENAI_MODEL env)
       [("system", system_prompt);
        ("user", user_prompt (join (nl +:+ nl) parts) (query_text request))]
     = Ok (choice :: rest)) ->
  exists cits context,
    query env request w
    = (Ok (JDict {[ "answer" := match choice with
                                | Some s => JStr s
                                | None => JNull
                                end;
                    "citations" := JList cits ]}),
       w ++ [retrieval_call env request;
             completion_call env context (query_text request)]) /\
    length cits = length passages /\
    forall i p, passages !! i = Some p ->
      exists dp c, p = JDict dp /\ cits !! i = Some (JDict c) /\ derived_from i dp c.
Proof.
  intros Hbody Hchunks Hne Hall Hchat.
  destruct (for_each_passages env passages Hall 0 [] [])
    as (parts & cits & Hrun & Hlen & Hnth).
  exists cits, (join (nl +:+ nl) parts). split; [|split; [exact Hlen|]].
  - rewrite (query_on_object env request w d Hbody), Hchunks.
    destruct passages as [|p ps]; [done|]. cbn [truthy].
    rewrite (generate_response_returns env (query_text request) (p :: ps) parts cits
               (choice :: rest)
               (match choice with Some s => JStr s | None => JNull end)
               (w ++ [retrieval_call env request]) Hrun (Hchat parts cits Hrun)).
    + by rewrite <- app_assoc.
    + by destruct choice.
  - intros i p Hi. destruct (Hnth i p Hi) as (dp & c & -> & Hc & _ & Hd).
    by exists dp, c.
Qed.

Lemma query_answers_with_citations_witness :
  exists cits context,
    query SampleDocs.echo Sample.request []
    = (Ok (JDict {[ "answer" :=
                      JStr (user_prompt "[1] hi" "What is the refund policy?");
                    "citations" := JList cits ]}),
       [] ++ [retrieval_call SampleDocs.echo Sample.request;
              completion_call SampleDocs.echo context "What is the refund policy?"]) /\
    length cits = 1 /\
    forall i p, [JDict Sample.short] !! i = Some p ->
      exists dp c, p = JDict dp /\ cits !! i = Some (JDict c) /\ derived_from i dp c.
Proof.
  apply (query_answers_with_citations SampleDocs.echo Sample.request []
           {[ "scored_chunks" := JList [JDict Sample.short] ]} [JDict Sample.short]
           (Some (user_prompt "[1] hi" "What is the refund policy?")) []).
  - eexists. split; [reflexivity|]. split; [cbn; lia | reflexivity].
  - reflexivity.
  - discriminate.
  - repeat constructor.
  - intros parts cits Hbuilt. vm_compute in Hbuilt.
    injection Hbuilt as <- <-. reflexivity.
Defined.

Lemma for_each_malformed env (l : list json) :
  Exists (fun p => is_passage p = false) l ->
  forall k acc, exists e,
    for_each (loop_body env) acc (enumerate_from k l) = Raise e.
Proof.
  induction l as [|p l IH]; intros Hex k acc; [by apply Exists_nil in Hex|].
  cbn [enumerate_from for_each].
  destruct (loop_body env acc (k, p)) as [acc'|e] eqn:Hstep; [|by exists e].
  cbn [rbind]. apply Exists_cons in Hex as [Hbad | Hex]; [|by apply IH].
  exfalso. unfold loop_body in Hstep. cbn [fst snd] in Hstep.
  destruct (context_part env k p); [|discriminate].
  cbn [rbind] in Hstep.
  destruct (citation k p) as [cit|] eqn:Hc; [|discriminate].
  apply citation_ok_passage in Hc. congruence.
Qed.

(** X10.  When one of the retrieved chunks is not a dictionary, or has a
    [text] that is not a string, the handler fails with an HTTP 500 and the
    language model is not called: the log holds the retrieval call only. *)
Theorem malformed_chunk_fails_before_model env request w d chunks :
  retrieval_body env request (JDict d) ->
  default (default (JList []) (d !! "scored_chunks")) (d !! "chunks")
  = JList chunks ->
  Exists (fun p => is_passage p = false) chunks ->
  exists e,
    query env request w
    = (Raise (HTTPException 500 (exn_str env e)), w ++ [retrieval_call env request]).
Proof.
  intros Hbody Hchunks Hex.
  rewrite (query_on_object env request w d Hbody), Hchunks.
  destruct chunks as [|p ps]; [by apply Exists_nil in Hex|]. cbn [truthy].
  destruct (for_each_malformed env (p :: ps) Hex 0 ([], [])) as [e He].
  exists e. unfold generate_response, bind, lift. cbn [iter].
  unfold build_context_and_citations, enumerate. by rewrite He.
Qed.

Lemma malformed_chunk_fails_before_model_witness :
  exists e,
    query (SampleDocs.replying
             (JDict {[ "chunks" := JList [JDict Sample.short; JDict SampleDocs.broken] ]})
             [Some "unused"])
          Sample.request []
    = (Raise (HTTPException 500
                (exn_str (SampleDocs.replying
                            (JDict {[ "chunks" := JList [JDict Sample.short;
                                                         JDict SampleDocs.broken] ]})
                            [Some "unused"]) e)),
       [] ++ [retrieval_call
                (SampleDocs.replying
                   (JDict {[ "chunks" := JList [JDict Sample.short;
                                                JDict SampleDocs.broken] ]})
                   [Some "unused"])
                Sample.request]).
Proof.
  apply (malformed_chunk_fails_before_model _ Sample.request []
           {[ "chunks" := JList [JDict Sample.short; JDict SampleDocs.broken] ]}
           [JDict Sample.short; JDict SampleDocs.broken]).
  - eexists. split; [reflexivity|]. split; [cbn; lia | reflexivity].
  - reflexivity.
  - apply Exists_cons_tl, Exists_cons_hd. reflexivity.
Defined.

(** X11.  Any falsy value under [chunks] (null, false, zero, an empty string,
    an empty object as well as an empty list) gives the canned answer, and
    the language model is not called. *)
Theorem falsy_chunks_short_circuit env request w d :
  retrieval_body env request (JDict d) ->
  truthy (default (default (JList []) (d !! "scored_chunks")) (d !! "chunks"))
  = false ->
  query env request w
  = (Ok no_relevant_information, w ++ [retrieval_call env request]).
Proof.
  intros Hbody Hfalsy.
  rewrite (query_on_object env request w d Hbody). cbn zeta. by rewrite Hfalsy.
Qed.

Lemma falsy_chunks_short_circuit_witness :
  query (SampleDocs.replying (JDict {[ "chunks" := JNull ]}) [Some "unused"])
        Sample.request []
  = (Ok no_relevant_information,
     [] ++ [retrieval_call
              (SampleDocs.replying (JDict {[ "chunks" := JNull ]}) [Some "unused"])
              Sample.request]).
Proof.
  apply (falsy_chunks_short_circuit _ Sample.request [] {[ "chunks" := JNull ]}).
  - eexists. split; [reflexivity|]. split; [cbn; lia | reflexivity].
  - reflexivity.
Defined.

(** X12.  When the completion returned for the call the handler makes has
    no choice at all, indexing the first choice fails after the call has
    been made, and the handler raises an HTTP 500 carrying that
    [IndexError]. *)
Theorem empty_completion_fails env request w d passages :
  retrieval_body env request (JDict d) ->
  default (default (JList []) (d !! "scored_chunks")) (d !! "chunks")
  = JList passages ->
  passages <> [] ->
  Forall (fun p => is_passage p = true) passages ->
  (forall parts cits,
     build_context_and_citations env passages = Ok (parts, cits) ->
     chat_completions_create env (OPENAI_MODEL env)
       [("system", system_prompt);
        ("user", user_prompt (join (nl +:+ nl) parts) (query_text request))]
     = Ok []) ->
  exists context,
    query env request w
    = (Raise (HTTPException 500 (exn_str env IndexError)),
       w ++ [retrieval_call env request;
             completion_call env context (query_text request)]).
Proof.
  intros Hbody Hchunks Hne Hall Hchat.
  destruct (for_each_passages env passages Hall 0 [] [])
    as (parts & cits & Hrun & _).
  exists (join (nl +:+ nl) parts).
  rewrite (query_on_object env request w d Hbody), Hchunks.
  destruct passages as [|p ps]; [done|]. cbn [truthy].
  pose proof (Hchat parts cits Hrun) as Hempty.
  unfold generate_response, bind, lift, external. cbn [iter].
  unfold build_context_and_citations, enumerate. cbn [app] in Hrun. rewrite Hrun.
  cbn [fst snd]. rewrite Hempty. cbn [first_choice_content].
  by rewrite <- app_assoc.
Qed.

Lemma empty_completion_fails_witness :
  exists context,
    query (SampleDocs.replying (JDict SampleDocs.scored_only) []) Sample.request []
    = (Raise (HTTPException 500
                (exn_str (SampleDocs.replying (JDict SampleDocs.scored_only) [])
                         IndexError)),
       [] ++ [retrieval_call (SampleDocs.replying (JDict SampleDocs.scored_only) [])
                             Sample.request;
              completion_call (SampleDocs.replying (JDict SampleDocs.scored_only) [])
                              context "What is the refund policy?"]).
Proof.
  apply (empty_completion_fails _ Sample.request [] SampleDocs.scored_only
           [JDict Sample.refunds; JDict Sample.short]).
  - eexists. split; [reflexivity|]. split; [cbn; lia | reflexivity].
  - reflexivity.
  - discriminate.
  - repeat constructor.
  - intros parts cits _. reflexivity.
Defined.

(** X13.  For well-formed passages, the context block number [i+1] is
    [[i+1] ] followed by the whole, untruncated text of passage [i], and
    the citation in the same position carries the id [i+1]: the bracketed
    numbers of the prompt and the citation ids agree. *)
Theorem context_matches_citations env (passages : list json) :
  Forall (fun p => is_passage p = true) passages ->
  exists parts cits,
    build_context_and_citations env passages = Ok (parts, cits) /\
    length parts = length passages /\
    forall i d, passages !! i = Some (JDict d) ->
      parts !! i = Some ("[" +:+ pretty (i + 1) +:+ "] " +:+ passage_text d) /\
      exists c, cits !! i = Some (JDict c) /\
                c !! "id" = Some (JInt (Z.of_nat i + 1)).
Proof.
  intros Hall.
  destruct (for_each_context env passages Hall 0 [] [])
    as (parts & cits & Hrun & Hlen & Hnth).
  by exists parts, cits.
Qed.

Lemma context_matches_citations_witness :
  exists parts cits,
    build_context_and_citations Sample.fine [JDict Sample.refunds; JDict Sample.long]
    = Ok (parts, cits) /\
    length parts = 2 /\
    forall i d, [JDict Sample.refunds; JDict Sample.long] !! i = Some (JDict d) ->
      parts !! i = Some ("[" +:+ pretty (i + 1) +:+ "] " +:+ passage_text d) /\
      exists c, cits !! i = Some (JDict c) /\
                c !! "id" = Some (JInt (Z.of_nat i + 1)).
Proof.
  apply (context_matches_citations Sample.fine
           [JDict Sample.refunds; JDict Sample.long]).
  repeat constructor.
Defined.

(** X14.  The route forwards [top_k] to the retrieval service as it was
    given, without any range check, and sends 8 when the body has none. *)
Theorem top_k_forwarded env b q c w :
  (validate_config env).1 = true ->
  body_query b = Some q ->
  body_client_id b = Some c ->
  exists payload tl,
    (post_query env b w).2
    = w ++ RagiePost (retrieval_url env) (JDict payload) (retrieval_headers env) :: tl /\
    payload !! "top_k" = Some (JInt (default 8%Z (body_top_k b))) /\
    payload !! "query" = Some (JStr q).
Proof.
  intros Hcfg Hq Hc. unfold post_query, bind, lift, verify_config, ret.
  destruct (validate_config env) as [valid msg]. cbn in Hcfg. subst valid.
  unfold parse_QueryRequest. rewrite Hq, Hc.
  match goal with |- context [query env ?rq w] =>
    destruct (query_log env rq w) as (tl & Htl & _)
  end.
  eexists _, tl. split; [exact Htl|]. cbn [query_text client_id top_k].
  split; [by destruct (body_top_k b) | reflexivity].
Qed.

Lemma top_k_forwarded_witness :
  exists payload tl,
    (post_query Sample.fine Sample.empty_query []).2
    = [] ++ RagiePost (retrieval_url Sample.fine) (JDict payload)
                      (retrieval_headers Sample.fine) :: tl /\
    payload !! "top_k" = Some (JInt (default 8%Z (body_top_k Sample.empty_query))) /\
    payload !! "query" = Some (JStr "").
Proof.
  apply (top_k_forwarded Sample.fine Sample.empty_query "" "client1" []);
    reflexivity.
Defined.

(** ** Uploading *)

Lemma upload_document_run env ext file c name w :
  upload_document env ext file c name w
  = (decoded (upload_answer env ext file c name w),
     w ++ [upload_call env ext file c name w]).
Proof.
  unfold upload_document, Logged.bind, Logged.history, Logged.try_except,
    Logged.external, Logged.lift, Logged.raise, decoded, upload_answer,
    upload_call, rbind.
  destruct (requests_post_files ext _ _ _ _ _ _) as [response|]; [|reflexivity].
  destruct (raise_for_status response); [|reflexivity].
  by destruct (response_json response).
Qed.

Lemma split_on_cons sep s : exists segment rest, split_on sep s = segment :: rest.
Proof.
  induction s as [|c s (segment & rest & IH)]; cbn; [by eexists _, _|].
  destruct (Ascii.eqb c sep); [by eexists _, _|].
  rewrite IH. by eexists _, _.
Qed.

Lemma split_on_app sep a e :
  split_on sep (a +:+ String sep e) = split_on sep a ++ split_on sep e.
Proof.
  induction a as [|c a IH].
  - change ("" +:+ String sep e) with (String sep e). cbn.
    by rewrite Ascii.eqb_refl.
  - change (String c a +:+ String sep e) with (String c (a +:+ String sep e)).
    cbn [split_on]. rewrite IH.
    destruct (Ascii.eqb c sep); [reflexivity|].
    by destruct (split_on_cons sep a) as (segment & rest & ->).
Qed.

Lemma split_on_absent sep e : has_char sep e = false -> split_on sep e = [e].
Proof.
  induction e as [|c e IH]; cbn; [reflexivity|].
  intros [Hc He]%orb_false_iff. by rewrite Hc, IH.
Qed.

Lemma file_extension_returns name : exists e, file_extension name = Ok e.
Proof.
  unfold file_extension, last_item.
  destruct (split_on_cons "."%char name) as (segment & rest & ->).
  destruct (last (segment :: rest)) eqn:Hlast; [by eexists|].
  by apply last_None in Hlast.
Qed.

(** X15.  The extension of a file name is what follows its last dot, in
    lower case; a name without a dot is its own extension. *)
Theorem file_extension_last_segment stem e :
  has_char "."%char e = false ->
  file_extension (stem +:+ "." +:+ e) = Ok (lower e) /\
  file_extension e = Ok (lower e).
Proof.
  intros Hdot. unfold file_extension, last_item.
  change ("." +:+ e) with (String "."%char e).
  rewrite split_on_app, (split_on_absent _ _ Hdot).
  by rewrite last_snoc.
Qed.

Lemma file_extension_last_segment_witness :
  file_extension ("Q3.Report" +:+ "." +:+ "PDF") = Ok (lower "PDF") /\
  file_extension "PDF" = Ok (lower "PDF").
Proof.
  apply (file_extension_last_segment "Q3.Report" "PDF"). reflexivity.
Defined.

(** X16.  A file whose extension is not one of pdf, docx, csv and txt is
    turned away before anything is uploaded; the HTTP 400 raised for it is
    caught by the handler's own [except] and reaches the caller as an
    HTTP 500 whose detail is the text of that 400. *)
Theorem unsupported_type_rejected env ext file client name e w :
  filename file = Some name ->
  file_extension name = Ok e ->
  in_list e supported_types = false ->
  upload_file env ext file client w
  = (Raise (HTTPException 500
              (exn_str env (HTTPException 400 (unsupported_detail e)))), w).
Proof.
  intros Hname Hext Hin.
  unfold upload_file, Logged.try_except, Logged.bind, Logged.lift, Logged.raise.
  by rewrite Hname, Hext, Hin.
Qed.

Lemma unsupported_type_rejected_witness :
  upload_file Sample.fine SampleDocs.healthy SampleDocs.program "client1" []
  = (Raise (HTTPException 500
              (exn_str Sample.fine (HTTPException 400 (unsupported_detail "exe")))),
     []).
Proof.
  apply (unsupported_type_rejected Sample.fine SampleDocs.healthy SampleDocs.program
           "client1" "setup.exe" "exe" []); reflexivity.
Defined.

(** X17.  When the first upload attempt, made with the file object, is
    answered with a success status and a JSON body, the handler returns that
    body and no second attempt is made. *)
Theorem upload_first_attempt env ext file client name e body w :
  filename file = Some name ->
  file_extension name = Ok e ->
  in_list e supported_types = true ->
  decoded (upload_answer env ext (BytesIO name (file_contents file)) client name w)
  = Ok body ->
  upload_file env ext file client w
  = (Ok body,
     w ++ [upload_call env ext (BytesIO name (file_contents file)) client name w]).
Proof.
  intros Hname Hext Hin Hfirst.
  unfold upload_file, Logged.try_except, Logged.bind, Logged.lift, Logged.raise.
  rewrite Hname, Hext, Hin. cbn [negb].
  by rewrite upload_document_run, Hfirst.
Qed.

Lemma upload_first_attempt_witness :
  upload_file Sample.fine SampleDocs.healthy SampleDocs.report "client1" []
  = (Ok (JDict {[ "id" := JStr "doc-1"; "status" := JStr "pending" ]}),
     [] ++ [upload_call Sample.fine SampleDocs.healthy
              (BytesIO "Q3.Report.PDF" (file_contents SampleDocs.report))
              "client1" "Q3.Report.PDF" []]).
Proof.
  apply (upload_first_attempt Sample.fine SampleDocs.healthy SampleDocs.report
           "client1" "Q3.Report.PDF" "pdf"); reflexivity.
Defined.

(** X18.  When the first upload attempt fails in any way, the handler tries
    exactly once more with the raw bytes of the same file; it returns the
    body of the second attempt, or raises an HTTP 500 carrying the second
    failure. *)
Theorem upload_fallback env ext file client name e e1 w :
  filename file = Some name ->
  file_extension name = Ok e ->
  in_list e supported_types = true ->
  decoded (upload_answer env ext (BytesIO name (file_contents file)) client name w)
  = Raise e1 ->
  let first := upload_call env ext (BytesIO name (file_contents file)) client name w in
  upload_file env ext file client w
  = (match decoded (upload_answer env ext (RawBytes (file_contents file)) client
                                  name (w ++ [first])) with
     | Ok body => Ok body
     | Raise e2 => Raise (HTTPException 500 (exn_str env e2))
     end,
     w ++ [first;
           upload_call env ext (RawBytes (file_contents file)) client name
                       (w ++ [first])]).
Proof.
  intros Hname Hext Hin Hfirst first. subst first.
  unfold upload_file, Logged.try_except, Logged.bind, Logged.lift, Logged.raise.
  rewrite Hname, Hext, Hin. cbn [negb].
  rewrite upload_document_run, Hfirst, upload_document_run.
  rewrite <- app_assoc.
  by destruct (decoded (upload_answer env ext (RawBytes _) client name _)).
Qed.

Lemma upload_fallback_witness :
  let first := upload_call Sample.fine SampleDocs.flaky
                 (BytesIO "Q3.Report.PDF" (file_contents SampleDocs.report))
                 "client1" "Q3.Report.PDF" [] in
  upload_file Sample.fine SampleDocs.flaky SampleDocs.report "client1" []
  = (match decoded (upload_answer Sample.fine SampleDocs.flaky
                      (RawBytes (file_contents SampleDocs.report)) "client1"
                      "Q3.Report.PDF" ([] ++ [first])) with
     | Ok body => Ok body
     | Raise e2 => Raise (HTTPException 500 (exn_str Sample.fine e2))
     end,
     [] ++ [first;
            upload_call Sample.fine SampleDocs.flaky
              (RawBytes (file_contents SampleDocs.report)) "client1"
              "Q3.Report.PDF" ([] ++ [first])]).
Proof.
  apply (upload_fallback Sample.fine SampleDocs.flaky SampleDocs.report
           "client1" "Q3.Report.PDF" "pdf" ConnectionError); reflexivity.
Defined.

(** X19.  One upload request makes at most two calls, both uploads to the
    documents endpoint whose form data carries the partition of the client
    id; nothing else is contacted. *)
Theorem upload_calls_scoped env ext file client w :
  exists tl,
    (upload_file env ext file client w).2 = w ++ tl /\
    length tl <= 2 /\
    Forall (fun c => exists name f t,
              c = UploadPost (documents_url env) (upload_headers env) name f
                             "application/octet-stream" (upload_data ext client t) /\
              upload_data ext client t !! "partition" = Some (partition_of client))
           tl.
Proof.
  assert (exists tl : list doc_call,
            w = w ++ tl /\ length tl <= 2 /\
            Forall (fun c => exists name f t,
                      c = UploadPost (documents_url env) (upload_headers env) name f
                            "application/octet-stream" (upload_data ext client t) /\
                      upload_data ext client t !! "partition"
                      = Some (partition_of client)) tl) as Hnone.
  { exists []. rewrite app_nil_r. split; [reflexivity|]. split; [cbn; lia | constructor]. }
  unfold upload_file, Logged.try_except, Logged.bind, Logged.lift, Logged.raise.
  destruct (filename file) as [name|]; [|exact Hnone].
  destruct (file_extension name) as [e|]; [|exact Hnone].
  destruct (in_list e supported_types); cbn [negb]; [|exact Hnone].
  rewrite upload_document_run.
  destruct (decoded (upload_answer env ext (BytesIO name _) client name w)).
  - eexists (cons _ nil). split; [reflexivity|]. split; [cbn; lia|].
    repeat constructor. by eexists _, _, _.
  - rewrite upload_document_run.
    eexists (cons _ (cons _ nil)). split.
    + destruct (decoded (upload_answer env ext (RawBytes _) client name _));
        cbn; by rewrite <- app_assoc.
    + split; [cbn; lia|]. repeat constructor; by eexists _, _, _.
Qed.

(** ** Listing *)

Lemma list_documents_run env ext c w :
  list_documents env ext c w
  = (Ok (listing_of (requests_get ext (documents_url env) (list_headers env c))),
     w ++ [DocumentsGet (documents_url env) (list_headers env c)]).
Proof.
  unfold list_documents, Logged.try_except, Logged.bind, Logged.external,
    Logged.lift, Logged.ret, Logged.raise, listing_of, decoded, rbind.
  destruct (requests_get ext _ _) as [response|]; [|reflexivity].
  destruct (raise_for_status response) as [[]|]; [|reflexivity].
  unfold response_json. by destruct (json_body response).
Qed.

(** X20.  [list_documents] never raises: it always returns a value after
    exactly one GET on the documents endpoint, whose [partition] header is
    the partition of the client id. *)
Theorem list_documents_never_raises env ext c w :
  exists documents,
    list_documents env ext c w
    = (Ok documents, w ++ [DocumentsGet (documents_url env) (list_headers env c)]) /\
    list_headers env c !! "partition" = Some (partition_of c).
Proof.
  eexists. split; [apply list_documents_run | reflexivity].
Qed.

(** X21.  On a successful answer, [list_documents] returns a JSON array as
    it is, the [documents] entry of an object that has one, a one-element
    list holding the object when it has none, and the empty list for any
    other JSON value. *)
Theorem list_documents_shapes env ext c w response body :
  requests_get ext (documents_url env) (list_headers env c) = Ok response ->
  ~ (400 <= status_code response < 600)%Z ->
  json_body response = Some body ->
  exists documents,
    (list_documents env ext c w).1 = Ok documents /\
    (forall l, body = JList l -> documents = JList l) /\
    (forall d v, body = JDict d -> d !! "documents" = Some v -> documents = v) /\
    (forall d, body = JDict d -> d !! "documents" = None ->
               documents = JList [JDict d]) /\
    (is_scalar body = true \/ (exists s, body = JStr s) -> documents = JList []).
Proof.
  intros Hget Hst Hbody. rewrite list_documents_run. eexists. split; [reflexivity|].
  unfold listing_of, decoded, rbind, response_json.
  rewrite Hget, (raise_for_status_ok _ Hst), Hbody.
  split; [by intros l ->|]. split; [|split].
  - intros d v -> Hv. cbn. by rewrite Hv.
  - intros d -> Hv. cbn. by rewrite Hv.
  - intros [Hsc | [s ->]]; [by destruct body | reflexivity].
Qed.

Lemma list_documents_shapes_witness :
  exists documents,
    (list_documents Sample.fine SampleDocs.healthy "client1" []).1 = Ok documents /\
    (forall l, JDict {[ "documents" := JList [JDict {[ "name" := JStr "a.pdf" ]}] ]}
               = JList l -> documents = JList l) /\
    (forall d v, JDict {[ "documents" := JList [JDict {[ "name" := JStr "a.pdf" ]}] ]}
                 = JDict d -> d !! "documents" = Some v -> documents = v) /\
    (forall d, JDict {[ "documents" := JList [JDict {[ "name" := JStr "a.pdf" ]}] ]}
               = JDict d -> d !! "documents" = None -> documents = JList [JDict d]) /\
    (is_scalar (JDict {[ "documents" := JList [JDict {[ "name" := JStr "a.pdf" ]}] ]})
     = true \/
     (exists s, JDict {[ "documents" := JList [JDict {[ "name" := JStr "a.pdf" ]}] ]}
                = JStr s) -> documents = JList []).
Proof.
  apply (list_documents_shapes Sample.fine SampleDocs.healthy "client1" []
           {| status_code := 200;
              json_body := Some (JDict {[ "documents" :=
                                            JList [JDict {[ "name" := JStr "a.pdf" ]}] ]}) |}).
  - reflexivity.
  - cbn. lia.
  - reflexivity.
Defined.

(** X22.  When the listing request raises, is answered with an error status
    or with a body that is not JSON, [list_documents] returns the empty
    list. *)
Theorem list_documents_failure_empty env ext c w e :
  decoded (requests_get ext (documents_url env) (list_headers env c)) = Raise e ->
  list_documents env ext c w
  = (Ok (JList []), w ++ [DocumentsGet (documents_url env) (list_headers env c)]).
Proof.
  intros Hfail. rewrite list_documents_run. unfold listing_of. by rewrite Hfail.
Qed.

Lemma list_documents_failure_empty_witness :
  list_documents Sample.fine SampleDocs.down "client1" []
  = (Ok (JList []),
     [] ++ [DocumentsGet (documents_url Sample.fine)
                         (list_headers Sample.fine "client1")]).
Proof.
  apply (list_documents_failure_empty Sample.fine SampleDocs.down "client1" []
           ConnectionError).
  reflexivity.
Defined.

(** X23.  The documents handler never raises: its HTTP 500 branch cannot be
    reached, and it always answers with an object whose only entry is
    [documents]. *)
Theorem get_documents_never_raises env ext request w :
  exists documents,
    get_documents env ext request w
    = (Ok (JDict {[ "documents" := documents ]}),
       w ++ [DocumentsGet (documents_url env)
                          (list_headers env (list_client_id request))]).
Proof.
  eexists. unfold get_documents, Logged.try_except, Logged.bind, Logged.ret.
  by rewrite list_documents_run.
Qed.

(** ** Webhooks and start-up *)

Lemma setup_webhook_run ext url w :
  exists r,
    (setup_webhook ext url w).1 = Ok r /\
    ((setup_webhook ext url w).2 = w \/
     (setup_webhook ext url w).2 = w ++ [WebhookCreate (webhook_config url)]) /\
    (r = webhook_warning \/
     exists client create,
       get_ragie_client ext = Ok client /\
       webhooks_create client = Some create /\
       create (webhook_config url) = Ok r).
Proof.
  unfold setup_webhook, Logged.try_except, Logged.bind, Logged.lift,
    Logged.external, Logged.ret.
  destruct (get_ragie_client ext) as [client|] eqn:Hclient;
    [|exists webhook_warning; by repeat split; left].
  destruct (webhooks_create client) as [create|] eqn:Hcreate;
    [|exists webhook_warning; by repeat split; left].
  destruct (create (webhook_config url)) as [r|] eqn:Hr.
  - exists r. split; [reflexivity|]. split; [by right|].
    right. by exists client, create.
  - exists webhook_warning. split; [reflexivity|]. split; [by right | by left].
Qed.

(** X24.  [setup_webhook] never raises.  When the SDK client is available,
    offers [webhooks.create] and that call succeeds, it returns the response
    of the call; when the call raises, it returns the warning dictionary;
    in both cases the creation request for the given URL is the one call
    made.  When the client is unavailable or has no [webhooks.create], it
    returns the warning dictionary and calls nothing. *)
Theorem setup_webhook_never_raises ext url w :
  (exists r, (setup_webhook ext url w).1 = Ok r) /\
  (forall client create r,
     get_ragie_client ext = Ok client ->
     webhooks_create client = Some create ->
     create (webhook_config url) = Ok r ->
     setup_webhook ext url w = (Ok r, w ++ [WebhookCreate (webhook_config url)])) /\
  (forall client create e,
     get_ragie_client ext = Ok client ->
     webhooks_create client = Some create ->
     create (webhook_config url) = Raise e ->
     setup_webhook ext url w
     = (Ok webhook_warning, w ++ [WebhookCreate (webhook_config url)])) /\
  (forall client,
     get_ragie_client ext = Ok client ->
     webhooks_create client = None ->
     setup_webhook ext url w = (Ok webhook_warning, w)) /\
  (forall e,
     get_ragie_client ext = Raise e ->
     setup_webhook ext url w = (Ok webhook_warning, w)).
Proof.
  split; [destruct (setup_webhook_run ext url w) as (r & Hr & _); by exists r|].
  unfold setup_webhook, Logged.try_except, Logged.bind, Logged.lift,
    Logged.external, Logged.ret.
  split; [|split; [|split]].
  - intros client create r -> -> ->. reflexivity.
  - intros client create e -> -> ->. reflexivity.
  - intros client -> ->. reflexivity.
  - intros e ->. reflexivity.
Qed.

Lemma setup_webhook_never_raises_witness :
  setup_webhook SampleDocs.with_webhooks "https://agent.example/webhook" []
  = (Ok SampleDocs.created,
     [] ++ [WebhookCreate (webhook_config "https://agent.example/webhook")]).
Proof.
  apply (proj1 (proj2 (setup_webhook_never_raises SampleDocs.with_webhooks
                         "https://agent.example/webhook" []))
           SampleDocs.working_webhooks (fun _ => Ok SampleDocs.created));
    reflexivity.
Defined.

(** X25.  Start-up never raises, whether the configuration is valid or not
    and whatever happens to the webhook; without a non-empty
    [WEBHOOK_BASE_URL] it contacts nothing, and otherwise at most the
    webhook creation for [<base>/webhook]. *)
Theorem startup_never_raises env ext w :
  (startup_event env ext w).1 = Ok tt /\
  (is_set (WEBHOOK_BASE_URL ext) = false -> (startup_event env ext w).2 = w) /\
  ((startup_event env ext w).2 = w \/
   (startup_event env ext w).2
   = w ++ [WebhookCreate
             (webhook_config (format_optional (WEBHOOK_BASE_URL ext) +:+ "/webhook"))]).
Proof.
  unfold startup_event.
  destruct (is_set (WEBHOOK_BASE_URL ext)); [|by repeat split; left].
  destruct (setup_webhook_run ext
              (format_optional (WEBHOOK_BASE_URL ext) +:+ "/webhook") w)
    as (r & Hr & Hlog & _).
  unfold Logged.try_except, Logged.bind, Logged.lift, Logged.ret.
  destruct (setup_webhook ext _ w) as [res w']. cbn in Hr, Hlog. subst res.
  split; [by destruct (get_none r "status")|]. split; [discriminate|].
  destruct (get_none r "status"); exact Hlog.
Qed.

Lemma startup_never_raises_witness :
  (startup_event SampleDocs.production SampleDocs.healthy []).1 = Ok tt /\
  (startup_event SampleDocs.production SampleDocs.healthy []).2 = [].
Proof.
  split.
  - apply (proj1 (startup_never_raises SampleDocs.production SampleDocs.healthy [])).
  - apply (proj1 (proj2 (startup_never_raises SampleDocs.production
                           SampleDocs.healthy []))).
    reflexivity.
Defined.

(** ** The progress shown for a document *)

Lemma status_map_entries :
  map_Forall (fun k v => (0 <= v <= 100)%Z /\ (v = 100%Z <-> k = "ready"))
             status_map.
Proof.
  apply map_Forall_to_list.
  let l := eval vm_compute in (map_to_list status_map) in
  change (map_to_list status_map) with l.
  repeat constructor; cbn; try lia; try discriminate.
Qed.

(** X26.  For every status string the progress is a percentage between 0
    and 100, and it is 100 exactly when the status, compared without regard
    to case, is [ready]. *)
Theorem progress_bounds s :
  exists p,
    get_progress_percentage (JStr s) = Ok p /\
    (0 <= p <= 100)%Z /\
    (p = 100%Z <-> lower s = "ready").
Proof.
  unfold get_progress_percentage.
  destruct (status_map !! lower s) as [v|] eqn:Hv.
  - exists v. split; [reflexivity|]. exact (status_map_entries _ _ Hv).
  - exists 20%Z. split; [reflexivity|]. split; [lia|].
    split; [discriminate|]. intros Hready. rewrite Hready in Hv. discriminate Hv.
Qed.

(** ** Chunks that are not a list *)

Lemma strings_are_not_passages env (l : list json) k acc x :
  exists e,
    for_each (loop_body env) acc (enumerate_from k (JStr x :: l)) = Raise e.
Proof.
  apply for_each_malformed. by apply Exists_cons_hd.
Qed.

(** X27.  When the value under [chunks] is truthy but not a list (a non-empty
    string or object, a non-zero number, [true]), the handler fails with an
    HTTP 500 and the language model is not called. *)
Theorem non_list_chunks_fail env request w d :
  retrieval_body env request (JDict d) ->
  let chunks := default (default (JList []) (d !! "scored_chunks")) (d !! "chunks") in
  truthy chunks = true ->
  (forall l, chunks <> JList l) ->
  exists e,
    query env request w
    = (Raise (HTTPException 500 (exn_str env e)), w ++ [retrieval_call env request]).
Proof.
  intros Hbody chunks Ht Hnl.
  rewrite (query_on_object env request w d Hbody). fold chunks. rewrite Ht.
  unfold generate_response, bind, lift, build_context_and_citations, enumerate.
  destruct chunks as [| | | |s|l|d0]; cbn [iter]; try by eexists.
  - destruct s as [|c s]; [discriminate Ht|].
    change (chars (String c s)) with (JStr (String c "") :: chars s).
    destruct (strings_are_not_passages env (chars s) 0 ([], []) (String c ""))
      as [e ->].
    by exists e.
  - by destruct (Hnl l).
  - cbn in Ht. apply negb_true_iff, bool_decide_eq_false in Ht.
    destruct (map_to_list d0) as [|[key v] rest] eqn:Hl.
    + by apply map_to_list_empty_iff in Hl.
    + change (JStr <$> ((key, v) :: rest).*1) with (JStr key :: (JStr <$> rest.*1)).
      destruct (strings_are_not_passages env (JStr <$> rest.*1) 0 ([], []) key)
        as [e ->].
      by exists e.
Qed.

Lemma non_list_chunks_fail_witness :
  exists e,
    query (SampleDocs.replying (JDict {[ "chunks" := JStr "none" ]}) [Some "unused"])
          Sample.request []
    = (Raise (HTTPException 500
                (exn_str (SampleDocs.replying (JDict {[ "chunks" := JStr "none" ]})
                                              [Some "unused"]) e)),
       [] ++ [retrieval_call
                (SampleDocs.replying (JDict {[ "chunks" := JStr "none" ]})
                                     [Some "unused"])
                Sample.request]).
Proof.
  apply (non_list_chunks_fail _ Sample.request [] {[ "chunks" := JStr "none" ]}).
  - eexists. split; [reflexivity|]. split; [cbn; lia | reflexivity].
  - reflexivity.
  - intros l. discriminate.
Defined.
